(** * MapBox route estimator: geocoding and directions pipeline

    A shallow embedding of [main.go]: the two request/response functions
    [geocodeAddress] and [getDistance], the structs they decode into, and
    the parts of the Go standard library they call ([strings.HasPrefix],
    [url.QueryEscape], the [%.6f] verb of [fmt.Sprintf], and
    [json.Unmarshal] on the program's struct types).

    The network is an input of the model: what [http.Get] and [io.ReadAll]
    answer for a URL is a parameter of each run. *)

From Stdlib Require Import String Ascii List ZArith NArith Bool Lia.
From Stdlib Require Import Floats DecimalString DecimalPos.
Import ListNotations.

Set Warnings "-inexact-float,-register-all,-notation-for-abbreviation".

Local Open Scope string_scope.
Local Open Scope list_scope.

(** ** Go values used by the program *)

(** [float64] is IEEE 754 binary64. *)
Definition float64 : Set := float.

(** The structs of [main.go].  A Go slice is read by the program only
    through [len] and indexing, so it is a list; the [nil] slice and the
    empty slice are both [[]]. *)

Record LocationInfo := mkLocationInfo {
  Latitude : float64;
  Longitude : float64;
  Country : string;
  Region : string;
  City : string;
  PlaceName : string
}.

Record Context := mkContext {
  ID : string;
  Text : string
}.

Record Feature := mkFeature {
  Feature_Type : string;
  Feature_PlaceName : string;
  Center : list float64;
  Feature_Context : list Context
}.

Record GeocodeResponse := mkGeocodeResponse {
  GeocodeResponse_Type : string;
  Features : list Feature
}.

Record Geometry := mkGeometry {
  Coordinates : list (list float64)
}.

Record Route := mkRoute {
  Distance : float64;
  Duration : float64;
  Route_Geometry : Geometry
}.

Record DirectionsResponse := mkDirectionsResponse {
  Routes : list Route
}.

(** Zero values, as [var x T] gives them. *)
Definition zeroContext : Context := mkContext "" "".
Definition zeroFeature : Feature := mkFeature "" "" [] [].
Definition zeroGeocodeResponse : GeocodeResponse := mkGeocodeResponse "" [].
Definition zeroGeometry : Geometry := mkGeometry [].
Definition zeroRoute : Route := mkRoute 0%float 0%float zeroGeometry.
Definition zeroDirectionsResponse : DirectionsResponse := mkDirectionsResponse [].

(** ** Errors and outcomes *)

(** [fmt.Errorf] with no [%w] verb returns an [*errors.errorString]: a value
    whose only content is its message. Every error the two functions return
    is built this way. *)
Inductive error := errorString (s : string).

Definition Error (e : error) : string :=
  match e with errorString s => s end.

(** The three failure kinds of the pipeline.  The Go code has no such type:
    the kind of a failure is the [return] statement that produced it. *)
Inductive ErrorKind := NetworkError | DecodeError | NotFoundError.

(** A run of one of the functions either returns a value with a [nil] error,
    returns an error, or panics. In [Failure] the [ErrorKind] is a ghost
    label naming the return site; the caller receives the [error] alone. *)
Inductive Outcome (A : Type) :=
| Success (a : A)
| Failure (site : ErrorKind) (err : error)
| Panic (msg : string).
Arguments Success {A} a.
Arguments Failure {A} site err.
Arguments Panic {A} msg.

Definition bind {A B} (o : Outcome A) (k : A -> Outcome B) : Outcome B :=
  match o with
  | Success a => k a
  | Failure s e => Failure s e
  | Panic m => Panic m
  end.

Notation "x <- c1 ;; c2" := (bind c1 (fun x => c2))
  (at level 61, c1 at next level, right associativity).

Definition decimal (n : nat) : string :=
  NilEmpty.string_of_uint (Nat.to_uint n).

(** [s[i]] on a slice: a run-time panic when [i] is out of range. *)
Definition index {A} (s : list A) (i : nat) : Outcome A :=
  match nth_error s i with
  | Some a => Success a
  | None =>
      Panic ("runtime error: index out of range [" ++ decimal i
             ++ "] with length " ++ decimal (List.length s))
  end.

(** ** Library functions *)

(** [strings.HasPrefix(s, prefix)]: byte-wise. *)
Definition HasPrefix (s p : string) : bool := String.prefix p s.

Module URL.

(** [net/url]: [shouldEscape(c, encodeQueryComponent)].  Letters, digits and
    the marks [-_.~] are kept; the reserved characters and every other byte
    are escaped. *)
Definition isAlnum (c : ascii) : bool :=
  let n := nat_of_ascii c in
  ((97 <=? n) && (n <=? 122) || (65 <=? n) && (n <=? 90)
   || (48 <=? n) && (n <=? 57))%nat.

Definition shouldEscape (c : ascii) : bool :=
  if isAlnum c then false
  else if (Ascii.eqb c "-" || Ascii.eqb c "_" || Ascii.eqb c "." || Ascii.eqb c "~")%char
  then false
  else true.

Definition upperhex (n : nat) : ascii :=
  match n with
  | 0 => "0" | 1 => "1" | 2 => "2" | 3 => "3" | 4 => "4" | 5 => "5"
  | 6 => "6" | 7 => "7" | 8 => "8" | 9 => "9" | 10 => "A" | 11 => "B"
  | 12 => "C" | 13 => "D" | 14 => "E" | _ => "F"
  end%char.

(** [escape(s, encodeQueryComponent)]: a space becomes [+], any other
    escaped byte becomes [%XX]. *)
Fixpoint QueryEscape (s : string) : string :=
  match s with
  | EmptyString => EmptyString
  | String c rest =>
      if shouldEscape c then
        if Ascii.eqb c " "%char then String "+"%char (QueryEscape rest)
        else
          let n := nat_of_ascii c in
          String "%"%char
            (String (upperhex (n / 16)) (String (upperhex (n mod 16)) (QueryEscape rest)))
      else String c (QueryEscape rest)
  end.

End URL.

(** [fmt.Sprintf] with the verb [%.6f].  [strconv] renders a finite value
    from its exact binary expansion, rounded to six decimals, ties to even;
    [fmt] prints infinities as [+Inf] and [-Inf] and a NaN as [NaN]. *)
Module Fmt.

Definition digit (n : N) : ascii := ascii_of_N (48 + n).

(** The last [k] decimal digits of [r], most significant first. *)
Fixpoint frac_digits (k : nat) (r : N) : string :=
  match k with
  | O => EmptyString
  | S k' => frac_digits k' (r / 10) ++ String (digit (r mod 10)) EmptyString
  end.

Definition int_digits (n : N) : string :=
  NilEmpty.string_of_uint (N.to_uint n).

(** [m * 2^e * 10^6] rounded to the nearest integer, ties to even. *)
Definition scaled6 (m : positive) (e : Z) : N :=
  let n := (Z.pos m * 1000000)%Z in
  if (0 <=? e)%Z then Z.to_N (n * 2 ^ e)
  else
    let d := (2 ^ (- e))%Z in
    let q := (n / d)%Z in
    let r := (n mod d)%Z in
    if (2 * r <? d)%Z then Z.to_N q
    else if (2 * r =? d)%Z then (if Z.even q then Z.to_N q else Z.to_N (q + 1))
    else Z.to_N (q + 1).

Definition fixed6 (n : N) : string :=
  int_digits (n / 1000000) ++ "." ++ frac_digits 6 (n mod 1000000).

Definition sign (s : bool) : string := if s then "-" else "".

Definition f6 (x : float64) : string :=
  match Prim2SF x with
  | S754_nan => "NaN"
  | S754_infinity false => "+Inf"
  | S754_infinity true => "-Inf"
  | S754_zero s => sign s ++ "0.000000"
  | S754_finite s m e => sign s ++ fixed6 (scaled6 m e)
  end.

End Fmt.

(** ** JSON and [json.Unmarshal] *)

(** A JSON text after the scanner: numbers keep their literal, object
    members keep their order and may repeat a name. *)
Inductive json :=
| JNull
| JBool (b : bool)
| JNumber (lit : string)
| JString (s : string)
| JArray (items : list json)
| JObject (members : list (string * json)).

(** The bytes read from a response: either rejected by the syntax check that
    [json.Unmarshal] runs first, or a JSON value. *)
Inductive Body :=
| NotJSON (raw : string)
| JSON (j : json).

Module Json.

(** [UnmarshalTypeError]: the JSON value met and the Go type it could not be
    stored in. *)
Record UnmarshalTypeError := mkTypeError {
  Value : string;
  GoType : string
}.

(** The decoder keeps the first type error and goes on decoding. *)
Definition saved := option UnmarshalTypeError.

Definition saveError (e : UnmarshalTypeError) (sv : saved) : saved :=
  match sv with
  | None => Some e
  | Some _ => sv
  end.

(** A decoder stores a JSON value into an existing Go value. *)
Definition decoder (A : Type) := json -> A -> saved -> A * saved.

Definition kindName (j : json) : string :=
  match j with
  | JNull => "null"
  | JBool _ => "bool"
  | JNumber _ => "number"
  | JString _ => "string"
  | JArray _ => "array"
  | JObject _ => "object"
  end.

Definition mismatch {A} (j : json) (ty : string) (old : A) (sv : saved) : A * saved :=
  (old, saveError (mkTypeError (kindName j) ty) sv).

Section Decoders.

(** [strconv.ParseFloat(lit, 64)] on a JSON number literal; [None] when the
    value is out of range. *)
Variable ParseFloat : string -> option float64.

(** The case folding under which a member name matches a field name when no
    field has exactly that name. *)
Variable foldName : string -> string.

Definition decodeString : decoder string :=
  fun j old sv =>
    match j with
    | JString s => (s, sv)
    | JNull => (old, sv)
    | _ => mismatch j "string" old sv
    end.

Definition decodeFloat64 : decoder float64 :=
  fun j old sv =>
    match j with
    | JNumber lit =>
        match ParseFloat lit with
        | Some x => (x, sv)
        | None => (old, saveError (mkTypeError ("number " ++ lit) "float64") sv)
        end
    | JNull => (old, sv)
    | _ => mismatch j "float64" old sv
    end.

(** Elements of an array: the [i]-th is decoded into the [i]-th element
    already in the slice, and into a zero value past its length. *)
Fixpoint decodeItems {A} (elem : decoder A) (zero : A) (items : list json)
    (old : list A) (sv : saved) : list A * saved :=
  match items with
  | [] => ([], sv)
  | j :: rest =>
      let cell := match old with
                  | [] => zero
                  | a :: _ => a
                  end in
      let '(a, sv1) := elem j cell sv in
      let '(l, sv2) := decodeItems elem zero rest (tl old) sv1 in
      (a :: l, sv2)
  end.

(** Into a slice: an array is decoded element by element over the slice as
    it is and sets its length (an empty array gives a new empty slice),
    [null] sets the slice to [nil], anything else is a type error and leaves
    the slice as it was.  A slice is decoded over only when two members of
    one object name the same field.  (The cells of the backing array past
    the length are taken as zero, which they are unless that field was
    decoded before with more elements.) *)
Definition decodeSlice {A} (elem : decoder A) (zero : A) (ty : string)
    : decoder (list A) :=
  fun j old sv =>
    match j with
    | JArray items => decodeItems elem zero items old sv
    | JNull => ([], sv)
    | _ => mismatch j ty old sv
    end.

Fixpoint indexWhere (p : string -> bool) (names : list string) : option nat :=
  match names with
  | [] => None
  | n :: rest =>
      if p n then Some O
      else match indexWhere p rest with
           | Some i => Some (S i)
           | None => None
           end
  end.

(** The field a member name selects: the field with exactly that name, else
    the first field equal to it under [foldName]. *)
Definition lookupField (names : list string) (key : string) : option nat :=
  match indexWhere (String.eqb key) names with
  | Some i => Some i
  | None => indexWhere (fun n => String.eqb (foldName n) (foldName key)) names
  end.

Fixpoint decodeMembers {S} (names : list string) (field : nat -> decoder S)
    (members : list (string * json)) (s : S) (sv : saved) : S * saved :=
  match members with
  | [] => (s, sv)
  | (key, v) :: rest =>
      match lookupField names key with
      | Some i =>
          let '(s1, sv1) := field i v s sv in
          decodeMembers names field rest s1 sv1
      | None => decodeMembers names field rest s sv
      end
  end.

(** Into a struct: the members of an object are stored field by field, in
    order, unknown names are skipped; [null] changes nothing. *)
Definition decodeStruct {S} (names : list string) (field : nat -> decoder S)
    (ty : string) : decoder S :=
  fun j old sv =>
    match j with
    | JObject members => decodeMembers names field members old sv
    | JNull => (old, sv)
    | _ => mismatch j ty old sv
    end.

(** Storing into one field of a struct. *)
Definition intoField {S F} (get : S -> F) (set : F -> S -> S) (d : decoder F)
    : decoder S :=
  fun j s sv => let '(f, sv1) := d j (get s) sv in (set f s, sv1).

(** The program's struct types, with the names of their [json] tags. *)

Definition decodeContext : decoder Context :=
  decodeStruct ["id"; "text"]
    (fun i =>
       match i with
       | 0 => intoField ID (fun v c => mkContext v (Text c)) decodeString
       | _ => intoField Text (fun v c => mkContext (ID c) v) decodeString
       end)
    "main.Context".

Definition decodeFeature : decoder Feature :=
  decodeStruct ["type"; "place_name"; "center"; "context"]
    (fun i =>
       match i with
       | 0 => intoField Feature_Type
                (fun v f => mkFeature v (Feature_PlaceName f) (Center f) (Feature_Context f))
                decodeString
       | 1 => intoField Feature_PlaceName
                (fun v f => mkFeature (Feature_Type f) v (Center f) (Feature_Context f))
                decodeString
       | 2 => intoField Center
                (fun v f => mkFeature (Feature_Type f) (Feature_PlaceName f) v (Feature_Context f))
                (decodeSlice decodeFloat64 0%float "[]float64")
       | _ => intoField Feature_Context
                (fun v f => mkFeature (Feature_Type f) (Feature_PlaceName f) (Center f) v)
                (decodeSlice decodeContext zeroContext "[]main.Context")
       end)
    "main.Feature".

Definition decodeGeocodeResponse : decoder GeocodeResponse :=
  decodeStruct ["type"; "features"]
    (fun i =>
       match i with
       | 0 => intoField GeocodeResponse_Type
                (fun v r => mkGeocodeResponse v (Features r)) decodeString
       | _ => intoField Features
                (fun v r => mkGeocodeResponse (GeocodeResponse_Type r) v)
                (decodeSlice decodeFeature zeroFeature "[]main.Feature")
       end)
    "main.GeocodeResponse".

Definition decodeGeometry : decoder Geometry :=
  decodeStruct ["coordinates"]
    (fun _ => intoField Coordinates (fun v _ => mkGeometry v)
                (decodeSlice (decodeSlice decodeFloat64 0%float "[]float64") []
                   "[][]float64"))
    "main.Geometry".

Definition decodeRoute : decoder Route :=
  decodeStruct ["distance"; "duration"; "geometry"]
    (fun i =>
       match i with
       | 0 => intoField Distance
                (fun v r => mkRoute v (Duration r) (Route_Geometry r)) decodeFloat64
       | 1 => intoField Duration
                (fun v r => mkRoute (Distance r) v (Route_Geometry r)) decodeFloat64
       | _ => intoField Route_Geometry
                (fun v r => mkRoute (Distance r) (Duration r) v) decodeGeometry
       end)
    "main.Route".

Definition decodeDirectionsResponse : decoder DirectionsResponse :=
  decodeStruct ["routes"]
    (fun _ => intoField Routes (fun v _ => mkDirectionsResponse v)
                (decodeSlice decodeRoute zeroRoute "[]main.Route"))
    "main.DirectionsResponse".

(** The error [json.Unmarshal] returns, if any. *)
Inductive UnmarshalError :=
| SyntaxError
| TypeError (e : UnmarshalTypeError).

(** [json.Unmarshal(body, &v)] for [v] holding [init]: the value stored and
    the error returned. *)
Definition Unmarshal {A} (d : decoder A) (body : Body) (init : A)
    : A * option UnmarshalError :=
  match body with
  | NotJSON _ => (init, Some SyntaxError)
  | JSON j =>
      let '(a, sv) := d j init None in
      (a, option_map TypeError sv)
  end.

End Decoders.

End Json.

(** ** The network *)

(** [io.ReadAll(resp.Body)]: the bytes, or the text of the error met while
    reading. *)
Inductive ReadResult :=
| ReadErr (cause : string)
| ReadOk (body : Body).

(** [http.Get(url)]: a response (of any status; the program does not look at
    it), or the text of the transport error. *)
Inductive GetResult :=
| GetErr (cause : string)
| GetOk (resp : ReadResult).

(** [fmt.Errorf(prefix + "%v", cause)]. *)
Definition Errorf (prefix cause : string) : error := errorString (prefix ++ cause).

(** ** The program *)

Definition sentinel : string := "Невідомо".

Definition setCountry (v : string) (l : LocationInfo) : LocationInfo :=
  mkLocationInfo (Latitude l) (Longitude l) v (Region l) (City l) (PlaceName l).
Definition setRegion (v : string) (l : LocationInfo) : LocationInfo :=
  mkLocationInfo (Latitude l) (Longitude l) (Country l) v (City l) (PlaceName l).
Definition setCity (v : string) (l : LocationInfo) : LocationInfo :=
  mkLocationInfo (Latitude l) (Longitude l) (Country l) (Region l) v (PlaceName l).

(** The body of the loop [for _, ctx := range feature.Context]. *)
Definition scanContext (location : LocationInfo) (ctx : Context) : LocationInfo :=
  if HasPrefix (ID ctx) "country" then setCountry (Text ctx) location
  else if HasPrefix (ID ctx) "region" then setRegion (Text ctx) location
  else if HasPrefix (ID ctx) "place" then setCity (Text ctx) location
  else location.

(** [geocodeAddress] from line 91 on: the first feature to a location. *)
Definition locationOf (feature : Feature) : Outcome LocationInfo :=
  lon <- index (Center feature) 0 ;;
  lat <- index (Center feature) 1 ;;
  let location :=
    mkLocationInfo lat lon sentinel sentinel sentinel (Feature_PlaceName feature) in
  Success (fold_left scanContext (Feature_Context feature) location).

Definition geocodeURL (address accessToken : string) : string :=
  let baseURL := "https://api.mapbox.com/geocoding/v5/mapbox.places/" in
  let encodedAddress := URL.QueryEscape address in
  baseURL ++ encodedAddress ++ ".json?access_token=" ++ accessToken.

Definition coordinates (start end_ : LocationInfo) : string :=
  Fmt.f6 (Longitude start) ++ "," ++ Fmt.f6 (Latitude start) ++ ";" ++
  Fmt.f6 (Longitude end_) ++ "," ++ Fmt.f6 (Latitude end_).

Definition directionsURL (start end_ : LocationInfo) (accessToken : string) : string :=
  let baseURL := "https://api.mapbox.com/directions/v5/mapbox/driving/" in
  baseURL ++ coordinates start end_ ++ "?access_token=" ++ accessToken
  ++ "&geometries=geojson".

Section Pipeline.

(** The libraries and the provider, fixed for a run. *)
Variable ParseFloat : string -> option float64.
Variable foldName : string -> string.

(** The text [err.Error()] of the error [json.Unmarshal] returns for a body,
    by target type. *)
Variable UnmarshalErrorText : string -> Body -> string.

Variable http_Get : string -> GetResult.

Definition geocodeAddress (address accessToken : string) : Outcome LocationInfo :=
  let apiURL := geocodeURL address accessToken in
  match http_Get apiURL with
  | GetErr cause => Failure NetworkError (Errorf "помилка HTTP запиту: " cause)
  | GetOk (ReadErr cause) =>
      Failure NetworkError (Errorf "помилка читання відповіді: " cause)
  | GetOk (ReadOk body) =>
      match Json.Unmarshal (Json.decodeGeocodeResponse ParseFloat foldName)
              body zeroGeocodeResponse with
      | (_, Some _) =>
          Failure DecodeError
            (Errorf "помилка парсингу JSON: "
               (UnmarshalErrorText "main.GeocodeResponse" body))
      | (geocodeResp, None) =>
          match Features geocodeResp with
          | [] => Failure NotFoundError (errorString "адресу не знайдено")
          | feature :: _ => locationOf feature
          end
      end
  end.

Definition getDistance (start end_ : LocationInfo) (accessToken : string)
    : Outcome (float64 * float64) :=
  let apiURL := directionsURL start end_ accessToken in
  match http_Get apiURL with
  | GetErr cause => Failure NetworkError (Errorf "помилка HTTP запиту: " cause)
  | GetOk (ReadErr cause) =>
      Failure NetworkError (Errorf "помилка читання відповіді: " cause)
  | GetOk (ReadOk body) =>
      match Json.Unmarshal (Json.decodeDirectionsResponse ParseFloat foldName)
              body zeroDirectionsResponse with
      | (_, Some _) =>
          Failure DecodeError
            (Errorf "помилка парсингу JSON: "
               (UnmarshalErrorText "main.DirectionsResponse" body))
      | (directionsResp, None) =>
          match Routes directionsResp with
          | [] => Failure NotFoundError (errorString "маршрут не знайдено")
          | route :: _ => Success (Distance route, Duration route)
          end
      end
  end.

End Pipeline.

(** ** Reference definitions for the properties *)

(** The last entry of a context list whose id begins with [ty]. *)
Definition lastMatch (ty : string) (ctxs : list Context) : option Context :=
  find (fun c => HasPrefix (ID c) ty) (rev ctxs).

Definition textOr (default : string) (o : option Context) : string :=
  match o with
  | Some c => Text c
  | None => default
  end.

(** An observation of an error that does not look at its message. *)
Definition textBlind {B : Type} (obs : error -> B) : Prop :=
  forall s s', obs (errorString s) = obs (errorString s').

(** The failure kind read off the message text. *)
Definition kindOfMessage (msg : string) : option ErrorKind :=
  if String.prefix "помилка HTTP запиту: " msg
     || String.prefix "помилка читання відповіді: " msg
  then Some NetworkError
  else if String.prefix "помилка парсингу JSON: " msg then Some DecodeError
  else if String.eqb msg "адресу не знайдено" || String.eqb msg "маршрут не знайдено"
  then Some NotFoundError
  else None.

(** Neither a NaN nor an infinity. *)
Definition finite (x : float64) : bool :=
  match Prim2SF x with
  | S754_zero _ | S754_finite _ _ _ => true
  | S754_infinity _ | S754_nan => false
  end.

Definition finiteLocation (l : LocationInfo) : Prop :=
  finite (Longitude l) = true /\ finite (Latitude l) = true.

Definition isDigit (c : ascii) : bool :=
  let n := nat_of_ascii c in ((48 <=? n) && (n <=? 57))%nat.

Fixpoint allDigits (s : string) : bool :=
  match s with
  | EmptyString => true
  | String c rest => isDigit c && allDigits rest
  end.

(** A decimal numeral with an optional minus sign, at least one digit
    before the point and exactly six digits after it. *)
Definition SixDecimals (s : string) : Prop :=
  exists sg whole frac : string,
    s = (sg ++ whole ++ "." ++ frac)%string /\
    (sg = "" \/ sg = "-") /\
    whole <> "" /\ allDigits whole = true /\
    allDigits frac = true /\ String.length frac = 6.

Definition finiteCenter (f : Feature) : Prop :=
  Forall (fun x => finite x = true) (Center f).

(** A property of Go values that a decoder maintains. *)
Definition preserves {A} (P : A -> Prop) (d : Json.decoder A) : Prop :=
  forall j old sv, P old -> P (fst (d j old sv)).

(** [%XX] for a byte. *)
Definition percentEncoded (c : ascii) : string :=
  let n := nat_of_ascii c in
  String "%"%char (String (URL.upperhex (n / 16)) (String (URL.upperhex (n mod 16)) "")).

Definition unreserved (c : ascii) : bool :=
  URL.isAlnum c
  || (Ascii.eqb c "-" || Ascii.eqb c "_" || Ascii.eqb c "." || Ascii.eqb c "~")%char.

(** How one byte of the address appears in the request URL. *)
Definition encodeByte (c : ascii) : string :=
  if unreserved c then String c ""
  else if Ascii.eqb c " "%char then "+"
  else percentEncoded c.

Fixpoint encodeBytes (s : string) : string :=
  match s with
  | EmptyString => EmptyString
  | String c rest => encodeByte c ++ encodeBytes rest
  end.

Fixpoint occurs (c : ascii) (s : string) : bool :=
  match s with
  | EmptyString => false
  | String d rest => Ascii.eqb c d || occurs c rest
  end.

(** WGS84 ranges. *)
Definition validLatitude (lat : float64) : bool :=
  PrimFloat.leb (-90)%float lat && PrimFloat.leb lat 90%float.

Definition validLongitude (lon : float64) : bool :=
  PrimFloat.leb (-180)%float lon && PrimFloat.leb lon 180%float.

Definition inRange (l : LocationInfo) : bool :=
  validLatitude (Latitude l) && validLongitude (Longitude l).

(** A JSON value that [json.Unmarshal] cannot store in a struct. *)
Definition notAnObject (j : json) : bool :=
  match j with
  | JObject _ | JNull => false
  | _ => true
  end.

(** A concrete environment for the examples. *)
Module Example.

(** [strconv.ParseFloat] on the number literals that occur in the examples. *)
Definition numberTable : list (string * float64) :=
  [("10.5", 10.5%float); ("50.2", 50.2%float);
   ("200", 200%float); ("100", 100%float);
   ("1250.5", 1250.5%float); ("95.25", 95.25%float)].

Fixpoint lookupNumber (t : list (string * float64)) (lit : string) : option float64 :=
  match t with
  | [] => None
  | (k, v) :: rest => if String.eqb k lit then Some v else lookupNumber rest lit
  end.

Definition ParseFloat : string -> option float64 := lookupNumber numberTable.

(** Case folding restricted to ASCII letters. *)
Definition upper (c : ascii) : ascii :=
  let n := nat_of_ascii c in
  if ((97 <=? n) && (n <=? 122))%nat then ascii_of_nat (n - 32) else c.

Fixpoint foldName (s : string) : string :=
  match s with
  | EmptyString => EmptyString
  | String c rest => String (upper c) (foldName rest)
  end.

Definition UnmarshalErrorText (ty : string) (_ : Body) : string :=
  "json: cannot unmarshal into Go value of type " ++ ty.

(** A provider that answers every request with the same body. *)
Definition answering (body : Body) : string -> GetResult :=
  fun _ => GetOk (ReadOk body).

(** A transport that fails. *)
Definition unreachable : string -> GetResult :=
  fun _ => GetErr "dial tcp: connection refused".

Definition geocode (get : string -> GetResult) : string -> string -> Outcome LocationInfo :=
  geocodeAddress ParseFloat foldName UnmarshalErrorText get.

Definition distance (get : string -> GetResult)
    : LocationInfo -> LocationInfo -> string -> Outcome (float64 * float64) :=
  getDistance ParseFloat foldName UnmarshalErrorText get.

Definition featureJSON (center : list json) (context : list json) : json :=
  JObject [("type", JString "Feature");
           ("place_name", JString "Somewhere 1, Some City");
           ("center", JArray center);
           ("context", JArray context)].

Definition contextJSON (id text : string) : json :=
  JObject [("id", JString id); ("text", JString text)].

Definition collection (features : list json) : Body :=
  JSON (JObject [("type", JString "FeatureCollection");
                 ("features", JArray features)]).

(** One feature with [center = [10.5, 50.2]] and two region entries. *)
Definition bodyRegions : Body :=
  collection
    [featureJSON [JNumber "10.5"; JNumber "50.2"]
       [contextJSON "region.1" "A"; contextJSON "region.2" "B"]].

Definition featureRegions : Feature :=
  mkFeature "Feature" "Somewhere 1, Some City" [10.5%float; 50.2%float]
    [mkContext "region.1" "A"; mkContext "region.2" "B"].

Definition featureNoContext : Feature :=
  mkFeature "Feature" "Somewhere 1, Some City" [10.5%float; 50.2%float] [].

(** One feature with [center = [10.5, 50.2]] and no context. *)
Definition bodyNoContext : Body :=
  collection [featureJSON [JNumber "10.5"; JNumber "50.2"] []].

(** One feature with [center = [200, 100]]. *)
Definition bodyFarAway : Body :=
  collection [featureJSON [JNumber "200"; JNumber "100"] []].

(** One feature whose [center] is the empty array. *)
Definition bodyNoCenter : Body :=
  collection [featureJSON [] []].

Definition bodyNoFeatures : Body := collection [].

Definition bodyNoRoutes : Body := JSON (JObject [("routes", JArray [])]).

Definition bodyOneRoute : Body :=
  JSON (JObject [("routes",
                  JArray [JObject [("distance", JNumber "1250.5");
                                   ("duration", JNumber "95.25")]])]).

(** A provider error object. *)
Definition bodyUnauthorized : Body :=
  JSON (JObject [("message", JString "unauthorized")]).

(** A body that is valid JSON but not an object. *)
Definition bodyArray : Body := JSON (JArray []).

Definition empireState : LocationInfo :=
  mkLocationInfo 40.748817%float (-73.985428)%float "" "" "" "".

Definition brooklynBridge : LocationInfo :=
  mkLocationInfo 40.706086%float (-73.996864)%float "" "" "" "".

(** A [LocationInfo] whose coordinates are NaN. *)
Definition nowhere : LocationInfo :=
  mkLocationInfo nan nan "" "" "" "".

End Example.

(** ** The rest of the program *)

(** *** Printing *)

(** [fmt] with the verb [%.Nf], as [Fmt.f6] for any precision: no decimal
    point is printed at precision zero. *)
Module Printf.

Definition scaled (prec : nat) (m : positive) (e : Z) : N :=
  let n := (Z.pos m * 10 ^ Z.of_nat prec)%Z in
  if (0 <=? e)%Z then Z.to_N (n * 2 ^ e)
  else
    let d := (2 ^ (- e))%Z in
    let q := (n / d)%Z in
    let r := (n mod d)%Z in
    if (2 * r <? d)%Z then Z.to_N q
    else if (2 * r =? d)%Z then (if Z.even q then Z.to_N q else Z.to_N (q + 1))
    else Z.to_N (q + 1).

Definition fixed (prec : nat) (n : N) : string :=
  let unit := (10 ^ N.of_nat prec)%N in
  Fmt.int_digits (n / unit)
  ++ match prec with
     | O => ""
     | _ => "." ++ Fmt.frac_digits prec (n mod unit)
     end.

Definition f (prec : nat) (x : float64) : string :=
  match Prim2SF x with
  | S754_nan => "NaN"
  | S754_infinity false => "+Inf"
  | S754_infinity true => "-Inf"
  | S754_zero s => Fmt.sign s ++ fixed prec 0
  | S754_finite s m e => Fmt.sign s ++ fixed prec (scaled prec m e)
  end.

End Printf.

(** The line feed. *)
Definition nl : string := String (ascii_of_nat 10) EmptyString.

(** *** The configuration file *)

(** A [map[string]string]: the stores made, latest first; the [nil] map is
    [[]]. *)
Definition StringMap := list (string * string).

(** [m[key]]: the zero value when the key is absent. *)
Definition mapIndex (m : StringMap) (key : string) : string :=
  match find (fun kv => String.eqb (fst kv) key) m with
  | Some kv => snd kv
  | None => ""
  end.

(** Each member of an object is decoded into a zero element and stored under
    its name, matched exactly. *)
Fixpoint decodeMapMembers (members : list (string * json)) (m : StringMap)
    (sv : Json.saved) : StringMap * Json.saved :=
  match members with
  | [] => (m, sv)
  | (key, v) :: rest =>
      let '(elem, sv1) := Json.decodeString v "" sv in
      decodeMapMembers rest ((key, elem) :: m) sv1
  end.

Definition decodeStringMap : Json.decoder StringMap :=
  fun j old sv =>
    match j with
    | JObject members => decodeMapMembers members old sv
    | JNull => ([], sv)
    | _ => Json.mismatch j "map[string]string" old sv
    end.

(** [loadToken], given the bytes [os.ReadFile("config.json")] returned (none
    when the file cannot be read).  Both errors are dropped. *)
Definition loadToken (data : Body) : string :=
  let '(config, _) := Json.Unmarshal decodeStringMap data [] in
  mapIndex config "mapbox_access_token".

(** *** The console loop *)

(** What the process has done so far: the text written to the standard
    output, the number of lines read, and the URLs requested. *)
Record World := mkWorld {
  stdout : string;
  reads : nat;
  requests : list string
}.

(** The way a call of [main] ends.  [Running]: the call has not ended when
    the model's bound on the recursion depth is reached; the process then
    goes on recursing until the runtime stops it for want of stack, which
    is neither a return nor a panic and is not described here. *)
Inductive Exit :=
| Returned
| Panicked (msg : string)
| Running.

(** A statement sequence: it exits [main], or goes on with a value. *)
Definition Proc (A : Type) := World -> (Exit + A) * World.

Definition ret {A} (a : A) : Proc A := fun w => (inr a, w).

Definition andThen {A B} (p : Proc A) (k : A -> Proc B) : Proc B :=
  fun w =>
    match p w with
    | (inl e, w1) => (inl e, w1)
    | (inr a, w1) => k a w1
    end.

Notation "x <~ p ;; k" := (andThen p (fun x => k))
  (at level 61, p at next level, right associativity).
Notation "p ;;; k" := (andThen p (fun _ => k))
  (at level 61, right associativity).

Definition print (s : string) : Proc unit :=
  fun w => (inr tt, mkWorld (stdout w ++ s) (reads w) (requests w)).

Definition panic {A} (msg : string) : Proc A := fun w => (inl (Panicked msg), w).

Definition nilDereference : string :=
  "runtime error: invalid memory address or nil pointer dereference".

Definition printLocation (name : string) (location : option LocationInfo) : Proc unit :=
  print (nl ++ name ++ ":" ++ nl) ;;;
  match location with
  | None => panic nilDereference
  | Some l =>
      print ("  Країна: " ++ Country l ++ nl) ;;;
      print ("  Область: " ++ Region l ++ nl) ;;;
      print ("  Місто: " ++ City l ++ nl) ;;;
      print ("  Широта: " ++ Printf.f 6 (Latitude l) ++ nl) ;;;
      print ("  Довгота: " ++ Printf.f 6 (Longitude l) ++ nl) ;;;
      print ("  Повна адреса: " ++ PlaceName l ++ nl)
  end.

Definition printDistance (distance duration : float64) : Proc unit :=
  print (nl ++ "Інформація про маршрут:" ++ nl) ;;;
  print ("  Відстань: " ++ Printf.f 2 distance ++ " метрів ("
         ++ Printf.f 2 (distance / 1000)%float ++ " км)" ++ nl) ;;;
  print ("  Тривалість: " ++ Printf.f 0 duration ++ " секунд ("
         ++ Printf.f 2 (duration / 60)%float ++ " хвилин)" ++ nl).

Section Process.

Variable ParseFloat : string -> option float64.
Variable foldName : string -> string.
Variable UnmarshalErrorText : string -> Body -> string.

(** What the [k]-th call of [readLine] in the process returns. *)
Variable stdin : nat -> string.

(** What the [k]-th call of [http.Get] in the process answers. *)
Variable net : nat -> string -> GetResult.

Variable MAPBOX_ACCESS_TOKEN : string.

Definition readLine : Proc string :=
  fun w => (inr (stdin (reads w)), mkWorld (stdout w) (S (reads w)) (requests w)).

(** [http.Get(url)] as a step of the process: the network's answer to this
    call, with the URL added to the requests made. *)
Definition httpGet (url : string) : Proc GetResult :=
  fun w =>
    (inr (net (List.length (requests w)) url),
     mkWorld (stdout w) (reads w) (requests w ++ [url])).

(** [*p]: a panic when the pointer is [nil]. *)
Definition deref {A} (p : option A) : Proc A :=
  match p with
  | Some a => ret a
  | None => panic nilDereference
  end.

(** [s[i]] as a step. *)
Definition elementAt {A} (s : list A) (i : nat) : Proc A :=
  match nth_error s i with
  | Some a => ret a
  | None =>
      panic ("runtime error: index out of range [" ++ decimal i
             ++ "] with length " ++ decimal (List.length s))
  end.

(** The call [geocodeAddress(address, MAPBOX_ACCESS_TOKEN)] of [main],
    statement by statement, with [http.Get] as the step [httpGet]: the
    pointer and the error it returns. *)
Definition callGeocode (address : string) : Proc (option LocationInfo * option error) :=
  let apiURL := geocodeURL address MAPBOX_ACCESS_TOKEN in
  got <~ httpGet apiURL ;;
  match got with
  | GetErr cause => ret (None, Some (Errorf "помилка HTTP запиту: " cause))
  | GetOk (ReadErr cause) =>
      ret (None, Some (Errorf "помилка читання відповіді: " cause))
  | GetOk (ReadOk body) =>
      match Json.Unmarshal (Json.decodeGeocodeResponse ParseFloat foldName)
              body zeroGeocodeResponse with
      | (_, Some _) =>
          ret (None,
               Some (Errorf "помилка парсингу JSON: "
                       (UnmarshalErrorText "main.GeocodeResponse" body)))
      | (geocodeResp, None) =>
          if Nat.eqb (List.length (Features geocodeResp)) 0
          then ret (None, Some (errorString "адресу не знайдено"))
          else
            feature <~ elementAt (Features geocodeResp) 0 ;;
            lon <~ elementAt (Center feature) 0 ;;
            lat <~ elementAt (Center feature) 1 ;;
            ret (Some (fold_left scanContext (Feature_Context feature)
                         (mkLocationInfo lat lon sentinel sentinel sentinel
                            (Feature_PlaceName feature))),
                 None)
      end
  end.

(** The call [getDistance(start, end, MAPBOX_ACCESS_TOKEN)] of [main], in
    the same way; the two locations are pointers, dereferenced where the
    coordinates are formatted, before the request. *)
Definition callDistance (start end_ : option LocationInfo)
    : Proc (float64 * float64 * option error) :=
  s <~ deref start ;;
  e <~ deref end_ ;;
  let apiURL := directionsURL s e MAPBOX_ACCESS_TOKEN in
  got <~ httpGet apiURL ;;
  match got with
  | GetErr cause =>
      ret (0%float, 0%float, Some (Errorf "помилка HTTP запиту: " cause))
  | GetOk (ReadErr cause) =>
      ret (0%float, 0%float, Some (Errorf "помилка читання відповіді: " cause))
  | GetOk (ReadOk body) =>
      match Json.Unmarshal (Json.decodeDirectionsResponse ParseFloat foldName)
              body zeroDirectionsResponse with
      | (_, Some _) =>
          ret (0%float, 0%float,
               Some (Errorf "помилка парсингу JSON: "
                       (UnmarshalErrorText "main.DirectionsResponse" body)))
      | (directionsResp, None) =>
          if Nat.eqb (List.length (Routes directionsResp)) 0
          then ret (0%float, 0%float, Some (errorString "маршрут не знайдено"))
          else
            route1 <~ elementAt (Routes directionsResp) 0 ;;
            route2 <~ elementAt (Routes directionsResp) 0 ;;
            ret (Distance route1, Duration route2, None)
      end
  end.

(** The body of [main]; [again] stands for its calls [main()]. *)
Definition round (again : Proc unit) : Proc unit :=
  print (nl ++ "Введіть першу адресу або місце (наприклад, 'м. Київ, вул. Хрещатик'):" ++ nl) ;;;
  address1 <~ readLine ;;
  print ("Введіть другу адресу або місце:" ++ nl) ;;;
  address2 <~ readLine ;;
  print (nl ++ "Обробка першої адреси..." ++ nl) ;;;
  r1 <~ callGeocode address1 ;;
  match snd r1 with
  | Some err =>
      print ("Помилка геокодування першої адреси: " ++ Error err ++ nl ++ nl ++ nl) ;;;
      again
  | None => ret tt
  end ;;;
  printLocation "Точка 1" (fst r1) ;;;
  print (nl ++ "Обробка другої адреси..." ++ nl) ;;;
  r2 <~ callGeocode address2 ;;
  match snd r2 with
  | Some err =>
      print ("Помилка геокодування другої адреси: " ++ Error err ++ nl ++ nl ++ nl) ;;;
      again
  | None => ret tt
  end ;;;
  printLocation "Точка 2" (fst r2) ;;;
  print (nl ++ "Обчислення маршруту..." ++ nl) ;;;
  r3 <~ callDistance (fst r1) (fst r2) ;;
  match snd r3 with
  | Some err =>
      print ("Помилка отримання відстані: " ++ Error err ++ nl ++ nl ++ nl) ;;;
      again
  | None => ret tt
  end ;;;
  printDistance (fst (fst r3)) (snd (fst r3)) ;;;
  print (nl ++ "=== Робота завершена успішно ===" ++ nl ++ nl ++ nl ++ nl) ;;;
  again.

(** A call [main()] made at recursion depth [fuel]: when it returns, the
    caller goes on with its next statement. *)
Definition calling (callee : World -> Exit * World) : Proc unit :=
  fun w =>
    match callee w with
    | (Returned, w1) => (inr tt, w1)
    | (e, w1) => (inl e, w1)
    end.

Fixpoint main (fuel : nat) (w : World) : Exit * World :=
  match fuel with
  | O => (Running, w)
  | S fuel' =>
      match round (calling (main fuel')) w with
      | (inl e, w1) => (e, w1)
      | (inr _, w1) => (Returned, w1)
      end
  end.

(** A location that some call of [geocodeAddress] in the process returns. *)
Definition geocoded (location : LocationInfo) : Prop :=
  exists k address,
    geocodeAddress ParseFloat foldName UnmarshalErrorText (net k) address
      MAPBOX_ACCESS_TOKEN = Success location.

(** The requests [main] is meant to make: a geocoding request for a line it
    read, or a directions request between two geocoded locations. *)
Definition expectedRequest (url : string) : Prop :=
  (exists j, url = geocodeURL (stdin j) MAPBOX_ACCESS_TOKEN) \/
  (exists start end_,
     geocoded start /\ geocoded end_ /\
     url = directionsURL start end_ MAPBOX_ACCESS_TOKEN).

(** The exits of [main] that are no return: the recursion bound, or a panic
    raised by a call of [geocodeAddress]. *)
Definition stopsByPanic (e : Exit) : Prop :=
  e = Running \/
  exists msg k address,
    e = Panicked msg /\
    geocodeAddress ParseFloat foldName UnmarshalErrorText (net k) address
      MAPBOX_ACCESS_TOKEN = Panic msg.

End Process.

(** Statements that keep [I] true of the world, exit only in a way [E]
    allows, and go on only with a value satisfying [Q]. *)
Definition hoare {A} (I : World -> Prop) (E : Exit -> Prop) (p : Proc A)
    (Q : A -> Prop) : Prop :=
  forall w, I w ->
    match p w with
    | (inl e, w1) => I w1 /\ E e
    | (inr a, w1) => I w1 /\ Q a
    end.

(** *** Reference definitions *)

(** A context entry that one of the three branches of the scan applies to. *)
Definition relevant (ctx : Context) : bool :=
  HasPrefix (ID ctx) "country" || HasPrefix (ID ctx) "region"
  || HasPrefix (ID ctx) "place".

Fixpoint allChars (p : ascii -> bool) (s : string) : bool :=
  match s with
  | EmptyString => true
  | String c rest => p c && allChars p rest
  end.

(** The characters [url.QueryEscape] can produce. *)
Definition urlSafe (c : ascii) : bool :=
  unreserved c || Ascii.eqb c "+" || Ascii.eqb c "%".

Definition unhex (c : ascii) : nat :=
  let n := nat_of_ascii c in
  if ((48 <=? n) && (n <=? 57))%nat then n - 48
  else if ((65 <=? n) && (n <=? 70))%nat then n - 55
  else 0.

(** Reading an escaped text back: [+] is a space, [%XX] a byte. *)
Fixpoint unescape (s : string) : string :=
  match s with
  | EmptyString => EmptyString
  | String c rest =>
      if Ascii.eqb c "+" then String " " (unescape rest)
      else if Ascii.eqb c "%" then
        match rest with
        | String h (String l rest') =>
            String (ascii_of_nat (16 * unhex h + unhex l)) (unescape rest')
        | _ => String c (unescape rest)
        end
      else String c (unescape rest)
  end.

(** The value of the last member of an object with a given name. *)
Definition lastMember (key : string) (members : list (string * json)) : option json :=
  option_map snd (find (fun kv => String.eqb (fst kv) key) (rev members)).

(** The token a configuration file holds: the last [mapbox_access_token]
    member of a JSON object when it is a string, and nothing otherwise. *)
Definition configuredToken (data : Body) : string :=
  match data with
  | JSON (JObject members) =>
      match lastMember "mapbox_access_token" members with
      | Some (JString s) => s
      | _ => ""
      end
  | _ => ""
  end.

(** A provider answer of the documented shape. *)
Definition contextEntry (c : Context) : json :=
  JObject [("id", JString (ID c)); ("text", JString (Text c))].

Definition providerFeature (placeName lonLit latLit : string) (context : list Context)
    : json :=
  JObject [("type", JString "Feature");
           ("place_name", JString placeName);
           ("center", JArray [JNumber lonLit; JNumber latLit]);
           ("context", JArray (map contextEntry context))].

Definition providerRoute (distanceLit durationLit : string) : json :=
  JObject [("distance", JNumber distanceLit); ("duration", JNumber durationLit)].

(** A candidate as the provider lists it: the coordinates are number
    literals. *)
Record Candidate := mkCandidate {
  candPlace : string;
  candLon : string;
  candLat : string;
  candContext : list Context
}.

Definition candidateJSON (c : Candidate) : json :=
  providerFeature (candPlace c) (candLon c) (candLat c) (candContext c).

Definition featuresBody (candidates : list Candidate) : Body :=
  JSON (JObject [("type", JString "FeatureCollection");
                 ("features", JArray (map candidateJSON candidates))]).

Definition routesBody (routes : list (string * string)) : Body :=
  JSON (JObject [("routes",
                  JArray (map (fun r => providerRoute (fst r) (snd r)) routes))]).

(** The number literals of a candidate are in range. *)
Definition parses (ParseFloat : string -> option float64) (c : Candidate) : Prop :=
  ParseFloat (candLon c) <> None /\ ParseFloat (candLat c) <> None.

(** A decoder that never drops an error already saved. *)
Definition sticky {A} (d : Json.decoder A) : Prop :=
  forall j old sv, sv <> None -> snd (d j old sv) <> None.

(** A session for the examples of the console loop. *)
Module Scenario.

Definition first : Candidate :=
  mkCandidate "Somewhere 1, Some City" "10.5" "50.2"
    [mkContext "postcode.3" "01001"; mkContext "place.5" "Some City";
     mkContext "region.1" "A"; mkContext "region.2" "B";
     mkContext "country.7" "Some Country"].

Definition second : Candidate :=
  mkCandidate "Elsewhere" "200" "100" [].

(** Two geocoding answers, then a directions answer, then no network. *)
Definition net (k : nat) : string -> GetResult :=
  match k with
  | 0 | 1 => Example.answering (featuresBody [first; second])
  | 2 => Example.answering (routesBody [("1250.5", "95.25"); ("200", "100")])
  | _ => Example.unreachable
  end.

Definition offline (k : nat) : string -> GetResult := Example.unreachable.

(** A provider whose candidates have no center. *)
Definition broken (k : nat) : string -> GetResult :=
  Example.answering Example.bodyNoCenter.

Definition stdin (k : nat) : string :=
  match k with
  | 0 => "Some City"
  | 1 => "Other City"
  | _ => ""
  end.

Definition start : World := mkWorld "" 0 [].

Definition run (net : nat -> string -> GetResult) (fuel : nat) : Exit * World :=
  main Example.ParseFloat Example.foldName Example.UnmarshalErrorText
    stdin net "token" fuel start.

(** A feature list whose second element is a string. *)
Definition bodyMalformed : Body :=
  JSON (JObject [("type", JString "FeatureCollection");
                 ("features", JArray [candidateJSON first; JString "oops"])]).

End Scenario.

(** * Properties *)

(** ** The context scan *)

Lemma scanContext_keeps (l : LocationInfo) (c : Context) :
  Latitude (scanContext l c) = Latitude l /\
  Longitude (scanContext l c) = Longitude l /\
  PlaceName (scanContext l c) = PlaceName l.
Proof.
  unfold scanContext.
  destruct (HasPrefix (ID c) "country"); [now cbn|].
  destruct (HasPrefix (ID c) "region"); [now cbn|].
  destruct (HasPrefix (ID c) "place"); now cbn.
Qed.

Lemma scan_keeps (ctxs : list Context) (l : LocationInfo) :
  Latitude (fold_left scanContext ctxs l) = Latitude l /\
  Longitude (fold_left scanContext ctxs l) = Longitude l /\
  PlaceName (fold_left scanContext ctxs l) = PlaceName l.
Proof.
  revert l; induction ctxs as [|c ctxs IH]; intro l; cbn; [tauto|].
  destruct (IH (scanContext l c)) as (H1 & H2 & H3).
  destruct (scanContext_keeps l c) as (K1 & K2 & K3).
  rewrite H1, H2, H3; auto.
Qed.

(** The three type strings start with different letters, so at most one
    branch of the [if]/[else if] chain can apply to an id. *)
Lemma prefixes_exclusive (id : string) :
  (HasPrefix id "country" = true ->
     HasPrefix id "region" = false /\ HasPrefix id "place" = false) /\
  (HasPrefix id "region" = true -> HasPrefix id "place" = false).
Proof.
  unfold HasPrefix.
  destruct id as [|a s]; cbn -[ascii_dec]; [split; discriminate|].
  destruct (ascii_dec "c" a) as [<-|].
  - cbn. split; [auto|discriminate].
  - split; [discriminate|].
    destruct (ascii_dec "r" a) as [<-|]; [cbn; auto|discriminate].
Qed.

Lemma lastMatch_snoc (ty : string) (ctxs : list Context) (c : Context) :
  lastMatch ty (ctxs ++ [c]) =
  if HasPrefix (ID c) ty then Some c else lastMatch ty ctxs.
Proof.
  unfold lastMatch. rewrite rev_app_distr. reflexivity.
Qed.

Lemma scan_lastMatch (ctxs : list Context) (l : LocationInfo) :
  Country (fold_left scanContext ctxs l) = textOr (Country l) (lastMatch "country" ctxs) /\
  Region (fold_left scanContext ctxs l) = textOr (Region l) (lastMatch "region" ctxs) /\
  City (fold_left scanContext ctxs l) = textOr (City l) (lastMatch "place" ctxs).
Proof.
  induction ctxs as [|c ctxs IH] using rev_ind; [cbn; tauto|].
  rewrite fold_left_app, !lastMatch_snoc. cbn [fold_left].
  destruct IH as (Hc & Hr & Hp).
  destruct (prefixes_exclusive (ID c)) as [Ec Er].
  unfold scanContext.
  destruct (HasPrefix (ID c) "country") eqn:Pc.
  - destruct (Ec eq_refl) as [-> ->]. cbn. auto.
  - destruct (HasPrefix (ID c) "region") eqn:Pr.
    + rewrite (Er eq_refl). cbn. auto.
    + destruct (HasPrefix (ID c) "place"); cbn; auto.
Qed.

(** ** Runs of [geocodeAddress] and [getDistance] *)

Section Decoded.

Variable ParseFloat : string -> option float64.
Variable foldName : string -> string.
Variable UnmarshalErrorText : string -> Body -> string.
Variable http_Get : string -> GetResult.

Local Notation geocode := (geocodeAddress ParseFloat foldName UnmarshalErrorText http_Get).
Local Notation route := (getDistance ParseFloat foldName UnmarshalErrorText http_Get).
Local Notation decodeGeocode :=
  (Json.Unmarshal (Json.decodeGeocodeResponse ParseFloat foldName)).
Local Notation decodeDirections :=
  (Json.Unmarshal (Json.decodeDirectionsResponse ParseFloat foldName)).

(** A run that received and decoded a response goes on with the decoded
    value. *)
Lemma geocodeAddress_decoded address accessToken body geocodeResp :
  http_Get (geocodeURL address accessToken) = GetOk (ReadOk body) ->
  decodeGeocode body zeroGeocodeResponse = (geocodeResp, None) ->
  geocode address accessToken =
  match Features geocodeResp with
  | [] => Failure NotFoundError (errorString "адресу не знайдено")
  | feature :: _ => locationOf feature
  end.
Proof.
  intros Hget Hdec. unfold geocodeAddress. rewrite Hget, Hdec. reflexivity.
Qed.

Lemma getDistance_decoded start end_ accessToken body directionsResp :
  http_Get (directionsURL start end_ accessToken) = GetOk (ReadOk body) ->
  decodeDirections body zeroDirectionsResponse = (directionsResp, None) ->
  route start end_ accessToken =
  match Routes directionsResp with
  | [] => Failure NotFoundError (errorString "маршрут не знайдено")
  | r :: _ => Success (Distance r, Duration r)
  end.
Proof.
  intros Hget Hdec. unfold getDistance. rewrite Hget, Hdec. reflexivity.
Qed.

Lemma locationOf_pair feature lon lat more :
  Center feature = lon :: lat :: more ->
  locationOf feature =
  Success (fold_left scanContext (Feature_Context feature)
             (mkLocationInfo lat lon sentinel sentinel sentinel
                (Feature_PlaceName feature))).
Proof.
  intro Hc. unfold locationOf, index. rewrite Hc. reflexivity.
Qed.

End Decoded.

(** Rewrites a run that decoded a response and found a first feature with a
    center pair into the scan of that feature's context. *)
Ltac first_feature Hf Hc :=
  erewrite geocodeAddress_decoded by eassumption;
  rewrite Hf; rewrite (locationOf_pair _ _ _ _ Hc).

Section Runs.

Variable ParseFloat : string -> option float64.
Variable foldName : string -> string.
Variable UnmarshalErrorText : string -> Body -> string.
Variable http_Get : string -> GetResult.

Local Notation geocode := (geocodeAddress ParseFloat foldName UnmarshalErrorText http_Get).
Local Notation route := (getDistance ParseFloat foldName UnmarshalErrorText http_Get).
Local Notation decodeGeocode :=
  (Json.Unmarshal (Json.decodeGeocodeResponse ParseFloat foldName)).
Local Notation decodeDirections :=
  (Json.Unmarshal (Json.decodeDirectionsResponse ParseFloat foldName)).

(** C1: when the feature list is not empty, the location built from the
    first feature's center pair has [Longitude = center[0]] and
    [Latitude = center[1]]. *)
Theorem geocodeAddress_center_order
    address accessToken body geocodeResp feature rest lon lat more :
  http_Get (geocodeURL address accessToken) = GetOk (ReadOk body) ->
  decodeGeocode body zeroGeocodeResponse = (geocodeResp, None) ->
  Features geocodeResp = feature :: rest ->
  Center feature = lon :: lat :: more ->
  exists location,
    geocode address accessToken = Success location /\
    Longitude location = lon /\ Latitude location = lat.
Proof.
  intros Hget Hdec Hf Hc.
  first_feature Hf Hc.
  eexists; split; [reflexivity|].
  destruct (scan_keeps (Feature_Context feature)
              (mkLocationInfo lat lon sentinel sentinel sentinel
                 (Feature_PlaceName feature))) as (H1 & H2 & _).
  rewrite H1, H2. auto.
Qed.

(** C2: each of [Country], [Region], [City] is the text of the last context
    entry of the first feature whose id begins with ["country"], ["region"],
    ["place"] respectively (the sentinel when there is none). *)
Theorem geocodeAddress_last_match_wins
    address accessToken body geocodeResp feature rest lon lat more :
  http_Get (geocodeURL address accessToken) = GetOk (ReadOk body) ->
  decodeGeocode body zeroGeocodeResponse = (geocodeResp, None) ->
  Features geocodeResp = feature :: rest ->
  Center feature = lon :: lat :: more ->
  exists location,
    geocode address accessToken = Success location /\
    Country location = textOr sentinel (lastMatch "country" (Feature_Context feature)) /\
    Region location = textOr sentinel (lastMatch "region" (Feature_Context feature)) /\
    City location = textOr sentinel (lastMatch "place" (Feature_Context feature)).
Proof.
  intros Hget Hdec Hf Hc.
  first_feature Hf Hc.
  eexists; split; [reflexivity|].
  apply (scan_lastMatch (Feature_Context feature)
           (mkLocationInfo lat lon sentinel sentinel sentinel
              (Feature_PlaceName feature))).
Qed.

(** C3: a decoded geocoding response with no feature makes [geocodeAddress]
    fail at the not-found return, and a decoded directions response with no
    route makes [getDistance] fail at its not-found return. *)
Theorem empty_list_is_not_found :
  (forall address accessToken body geocodeResp,
     http_Get (geocodeURL address accessToken) = GetOk (ReadOk body) ->
     decodeGeocode body zeroGeocodeResponse = (geocodeResp, None) ->
     Features geocodeResp = [] ->
     geocode address accessToken =
     Failure NotFoundError (errorString "адресу не знайдено")) /\
  (forall start end_ accessToken body directionsResp,
     http_Get (directionsURL start end_ accessToken) = GetOk (ReadOk body) ->
     decodeDirections body zeroDirectionsResponse = (directionsResp, None) ->
     Routes directionsResp = [] ->
     route start end_ accessToken =
     Failure NotFoundError (errorString "маршрут не знайдено")).
Proof.
  split.
  - intros * Hget Hdec Hf.
    erewrite geocodeAddress_decoded by eassumption. rewrite Hf. reflexivity.
  - intros * Hget Hdec Hr.
    erewrite getDistance_decoded by eassumption. rewrite Hr. reflexivity.
Qed.

(** C6, as the code has it: when the first feature has no context entry
    and its center holds a pair, the call succeeds, [Country], [Region] and
    [City] are the sentinel, and [Latitude], [Longitude] and [PlaceName]
    come from the feature. *)
Theorem geocodeAddress_empty_context
    address accessToken body geocodeResp feature rest lon lat more :
  http_Get (geocodeURL address accessToken) = GetOk (ReadOk body) ->
  decodeGeocode body zeroGeocodeResponse = (geocodeResp, None) ->
  Features geocodeResp = feature :: rest ->
  Center feature = lon :: lat :: more ->
  Feature_Context feature = [] ->
  geocode address accessToken =
  Success (mkLocationInfo lat lon sentinel sentinel sentinel
             (Feature_PlaceName feature)).
Proof.
  intros Hget Hdec Hf Hc Hx.
  first_feature Hf Hc. rewrite Hx. reflexivity.
Qed.

End Runs.

(** ** Failure kinds *)

Lemma locationOf_never_fails feature site err :
  locationOf feature <> Failure site err.
Proof.
  unfold locationOf, index.
  destruct (Center feature) as [|lon [|lat more]]; cbn; discriminate.
Qed.

Lemma prefix_append (p s : string) : String.prefix p (p ++ s) = true.
Proof.
  induction p as [|a p IH]; cbn -[ascii_dec].
  - destruct s; reflexivity.
  - destruct (ascii_dec a a); [exact IH|congruence].
Qed.

Lemma kindOfMessage_transport cause :
  kindOfMessage (Error (Errorf "помилка HTTP запиту: " cause)) = Some NetworkError.
Proof.
  unfold kindOfMessage, Errorf, Error. rewrite prefix_append. reflexivity.
Qed.

Lemma kindOfMessage_read cause :
  kindOfMessage (Error (Errorf "помилка читання відповіді: " cause)) = Some NetworkError.
Proof.
  unfold kindOfMessage, Errorf, Error. rewrite prefix_append, orb_true_r. reflexivity.
Qed.

Lemma kindOfMessage_decode cause :
  kindOfMessage (Error (Errorf "помилка парсингу JSON: " cause)) = Some DecodeError.
Proof.
  unfold kindOfMessage, Errorf, Error. rewrite prefix_append. reflexivity.
Qed.

Section Failures.

Variable ParseFloat : string -> option float64.
Variable foldName : string -> string.
Variable UnmarshalErrorText : string -> Body -> string.
Variable http_Get : string -> GetResult.

Local Notation geocode := (geocodeAddress ParseFloat foldName UnmarshalErrorText http_Get).
Local Notation route := (getDistance ParseFloat foldName UnmarshalErrorText http_Get).

Lemma geocodeAddress_failure_message address accessToken site err :
  geocode address accessToken = Failure site err ->
  kindOfMessage (Error err) = Some site.
Proof.
  unfold geocodeAddress.
  destruct (http_Get (geocodeURL address accessToken)) as [cause|[cause|body]].
  - intros [= <- <-]. apply kindOfMessage_transport.
  - intros [= <- <-]. apply kindOfMessage_read.
  - destruct (Json.Unmarshal _ body zeroGeocodeResponse) as [resp [e|]].
    + intros [= <- <-]. apply kindOfMessage_decode.
    + destruct (Features resp) as [|feature rest].
      * intros [= <- <-]. reflexivity.
      * intro H. now apply locationOf_never_fails in H.
Qed.

Lemma getDistance_failure_message start end_ accessToken site err :
  route start end_ accessToken = Failure site err ->
  kindOfMessage (Error err) = Some site.
Proof.
  unfold getDistance.
  destruct (http_Get (directionsURL start end_ accessToken)) as [cause|[cause|body]].
  - intros [= <- <-]. apply kindOfMessage_transport.
  - intros [= <- <-]. apply kindOfMessage_read.
  - destruct (Json.Unmarshal _ body zeroDirectionsResponse) as [resp [e|]].
    + intros [= <- <-]. apply kindOfMessage_decode.
    + destruct (Routes resp) as [|r rest].
      * intros [= <- <-]. reflexivity.
      * discriminate.
Qed.

(** C4, as the code has it: the kind of every failure of [geocodeAddress]
    and of [getDistance] is determined by the message text of the returned
    error, which is all that the error carries. *)
Theorem failure_kind_is_in_message_text :
  (forall address accessToken site err,
     geocode address accessToken = Failure site err ->
     kindOfMessage (Error err) = Some site) /\
  (forall start end_ accessToken site err,
     route start end_ accessToken = Failure site err ->
     kindOfMessage (Error err) = Some site).
Proof.
  split.
  - exact geocodeAddress_failure_message.
  - exact getDistance_failure_message.
Qed.

End Failures.

(** C4, as stated, fails: a not-found failure, a transport failure and a
    decode failure return errors that no observation can tell apart unless
    it reads the message text. *)
Lemma failure_kinds_differ_only_in_text :
  exists notFound transport decode,
    Example.geocode (Example.answering Example.bodyNoFeatures) "nowhere" "token"
      = Failure NotFoundError notFound /\
    Example.geocode Example.unreachable "nowhere" "token"
      = Failure NetworkError transport /\
    Example.geocode (Example.answering (NotJSON "<html>")) "nowhere" "token"
      = Failure DecodeError decode /\
    forall (B : Type) (obs : error -> B), textBlind obs ->
      obs notFound = obs transport /\ obs notFound = obs decode.
Proof.
  do 3 eexists.
  split; [reflexivity|]. split; [reflexivity|]. split; [reflexivity|].
  intros B obs Hblind. split; apply Hblind.
Qed.

(** ** The [%.6f] verb *)

Lemma digit_isDigit (n : N) : (n < 10)%N -> isDigit (Fmt.digit n) = true.
Proof.
  intro H. destruct n as [|p]; [reflexivity|].
  do 4 (destruct p as [p|p|]; try reflexivity; try (exfalso; lia)).
Qed.

Lemma allDigits_app (s t : string) :
  allDigits (s ++ t) = allDigits s && allDigits t.
Proof.
  induction s as [|c s IH]; cbn; [reflexivity|].
  rewrite IH. apply andb_assoc.
Qed.

Lemma length_app (s t : string) :
  String.length (s ++ t) = String.length s + String.length t.
Proof.
  induction s as [|c s IH]; cbn; [reflexivity|]. now rewrite IH.
Qed.

Lemma frac_digits_shape (k : nat) (r : N) :
  allDigits (Fmt.frac_digits k r) = true /\ String.length (Fmt.frac_digits k r) = k.
Proof.
  revert r; induction k as [|k IH]; intro r; cbn [Fmt.frac_digits].
  - split; reflexivity.
  - destruct (IH (r / 10)%N) as [Hd Hl].
    rewrite allDigits_app, length_app, Hd, Hl. cbn [allDigits String.length].
    rewrite digit_isDigit by (apply N.mod_lt; discriminate).
    split; [reflexivity|lia].
Qed.

Lemma string_of_uint_digits (u : Decimal.uint) :
  allDigits (NilEmpty.string_of_uint u) = true.
Proof.
  induction u; cbn [NilEmpty.string_of_uint allDigits]; auto.
Qed.

Lemma int_digits_shape (n : N) :
  Fmt.int_digits n <> "" /\ allDigits (Fmt.int_digits n) = true.
Proof.
  unfold Fmt.int_digits. split; [|apply string_of_uint_digits].
  destruct n as [|p]; [discriminate|].
  cbn [N.to_uint]. pose proof (Unsigned.to_uint_nonnil p) as Hn.
  destruct (Pos.to_uint p); [congruence| | | | | | | | | |]; discriminate.
Qed.

Lemma fixed6_shape (sg : bool) (n : N) :
  SixDecimals (Fmt.sign sg ++ Fmt.fixed6 n).
Proof.
  destruct (int_digits_shape (n / 1000000)) as [Hne Hd].
  destruct (frac_digits_shape 6 (n mod 1000000)) as [Hf Hl].
  exists (Fmt.sign sg), (Fmt.int_digits (n / 1000000)),
         (Fmt.frac_digits 6 (n mod 1000000)).
  repeat split; auto.
  destruct sg; [right|left]; reflexivity.
Qed.

(** A finite value is printed with exactly six decimals. *)
Lemma f6_finite (x : float64) : finite x = true -> SixDecimals (Fmt.f6 x).
Proof.
  unfold finite, Fmt.f6.
  destruct (Prim2SF x) as [s|s| |s m e]; try discriminate; intros _.
  - exists (Fmt.sign s), "0", "000000".
    repeat split; auto; try discriminate.
    destruct s; [right|left]; reflexivity.
  - apply fixed6_shape.
Qed.

(** The six-decimal numeral is the nearest one: the scaled integer is within
    half a unit of [m * 2^e * 10^6]. *)
Lemma scaled6_nearest (m : positive) (e : Z) :
  (e < 0)%Z ->
  let d := (2 ^ (- e))%Z in
  let n := (Z.pos m * 1000000)%Z in
  (2 * Z.abs (Z.of_N (Fmt.scaled6 m e) * d - n) <= d)%Z.
Proof.
  intros He d n. unfold Fmt.scaled6.
  destruct (0 <=? e)%Z eqn:E; [apply Z.leb_le in E; lia|].
  fold d n.
  assert (Hd : (0 < d)%Z) by (apply Z.pow_pos_nonneg; lia).
  pose proof (Z.div_mod n d ltac:(lia)) as Hdm.
  pose proof (Z.mod_pos_bound n d Hd) as Hr.
  assert (Hq : (0 <= n / d)%Z) by (apply Z.div_pos; lia).
  set (q := (n / d)%Z) in *. set (r := (n mod d)%Z) in *.
  destruct (2 * r <? d)%Z eqn:E1.
  - apply Z.ltb_lt in E1. rewrite Z2N.id by lia. nia.
  - apply Z.ltb_ge in E1.
    destruct (2 * r =? d)%Z eqn:E2.
    + apply Z.eqb_eq in E2.
      destruct (Z.even q); rewrite Z2N.id by lia; nia.
    + rewrite Z2N.id by lia. nia.
Qed.

(** ** Decoded numbers are finite *)

Lemma decodeItems_Forall {A} (P : A -> Prop) (elem : Json.decoder A) (zero : A) :
  preserves P elem -> P zero ->
  forall items old sv,
    Forall P old -> Forall P (fst (Json.decodeItems elem zero items old sv)).
Proof.
  intros He Hz. induction items as [|j items IH]; intros old sv Hold;
    cbn [Json.decodeItems]; [constructor|].
  assert (Hcell : P (match old with [] => zero | a :: _ => a end)).
  { destruct Hold; assumption. }
  assert (Htl : Forall P (tl old)).
  { destruct Hold; [constructor|assumption]. }
  pose proof (He j _ sv Hcell) as Ha.
  destruct (elem j _ sv) as [a sv1]. cbn [fst] in Ha.
  specialize (IH (tl old) sv1 Htl).
  destruct (Json.decodeItems elem zero items (tl old) sv1) as [l sv2].
  cbn [fst] in *. now constructor.
Qed.

Lemma decodeSlice_Forall {A} (P : A -> Prop) (elem : Json.decoder A) (zero : A) ty :
  preserves P elem -> P zero ->
  preserves (Forall P) (Json.decodeSlice elem zero ty).
Proof.
  intros He Hz j old sv Hold. unfold Json.decodeSlice.
  destruct j; cbn; auto. now apply decodeItems_Forall.
Qed.

Lemma intoField_preserves {S F} (P : S -> Prop) (Q : F -> Prop)
    (get : S -> F) (set : F -> S -> S) (d : Json.decoder F) :
  (forall s, P s -> Q (get s)) ->
  (forall v s, Q v -> P s -> P (set v s)) ->
  preserves Q d -> preserves P (Json.intoField get set d).
Proof.
  intros Hget Hset Hd j s sv Hs. unfold Json.intoField.
  pose proof (Hd j (get s) sv (Hget s Hs)) as Hv.
  destruct (d j (get s) sv) as [v sv1]. cbn in *. auto.
Qed.

Lemma preserves_True {F} (d : Json.decoder F) : preserves (fun _ => True) d.
Proof. intros j old sv _. exact I. Qed.

Section DecodedNumbers.

Variable ParseFloat : string -> option float64.
Variable foldName : string -> string.

(** [strconv.ParseFloat] reports a value out of the binary64 range as an
    error; what it returns without error is finite. *)
Hypothesis ParseFloat_finite :
  forall lit x, ParseFloat lit = Some x -> finite x = true.

Lemma decodeMembers_preserves {S} (P : S -> Prop) names (field : nat -> Json.decoder S) :
  (forall i, preserves P (field i)) ->
  forall members s sv, P s ->
    P (fst (Json.decodeMembers foldName names field members s sv)).
Proof.
  intros Hf. induction members as [|[key v] members IH]; intros s sv Hs; cbn; [exact Hs|].
  destruct (Json.lookupField foldName names key) as [i|]; [|now apply IH].
  pose proof (Hf i v s sv Hs) as H1.
  destruct (field i v s sv) as [s1 sv1]. cbn in H1. now apply IH.
Qed.

Lemma decodeStruct_preserves {S} (P : S -> Prop) names (field : nat -> Json.decoder S) ty :
  (forall i, preserves P (field i)) ->
  preserves P (Json.decodeStruct foldName names field ty).
Proof.
  intros Hf j old sv Hold. unfold Json.decodeStruct.
  destruct j; cbn; auto. now apply decodeMembers_preserves.
Qed.

Lemma decodeFloat64_finite :
  preserves (fun x => finite x = true) (Json.decodeFloat64 ParseFloat).
Proof.
  intros j old sv Hold. unfold Json.decodeFloat64.
  destruct j; cbn; auto.
  destruct (ParseFloat lit) as [x|] eqn:Hp; cbn; eauto.
Qed.

Lemma decodeFeature_finite :
  preserves finiteCenter (Json.decodeFeature ParseFloat foldName).
Proof.
  apply decodeStruct_preserves. intros [|[|[|i]]].
  - apply (intoField_preserves _ (fun _ => True)); auto using preserves_True.
  - apply (intoField_preserves _ (fun _ => True)); auto using preserves_True.
  - apply (intoField_preserves _ (Forall (fun x => finite x = true))); auto.
    apply decodeSlice_Forall; [apply decodeFloat64_finite|reflexivity].
  - apply (intoField_preserves _ (fun _ => True)); auto using preserves_True.
Qed.

Lemma decodeGeocodeResponse_finite :
  preserves (fun r => Forall finiteCenter (Features r))
    (Json.decodeGeocodeResponse ParseFloat foldName).
Proof.
  apply decodeStruct_preserves. intros [|i].
  - apply (intoField_preserves _ (fun _ => True)); auto using preserves_True.
  - apply (intoField_preserves _ (Forall finiteCenter)); auto.
    apply decodeSlice_Forall; [apply decodeFeature_finite|constructor].
Qed.

Variable UnmarshalErrorText : string -> Body -> string.
Variable http_Get : string -> GetResult.

(** Every location that [geocodeAddress] returns has finite coordinates. *)
Lemma geocodeAddress_finite address accessToken location :
  geocodeAddress ParseFloat foldName UnmarshalErrorText http_Get address accessToken
    = Success location ->
  finiteLocation location.
Proof.
  unfold geocodeAddress.
  destruct (http_Get (geocodeURL address accessToken)) as [cause|[cause|body]];
    try discriminate.
  unfold Json.Unmarshal. destruct body as [raw|j]; [discriminate|].
  pose proof (decodeGeocodeResponse_finite j zeroGeocodeResponse None
                (Forall_nil _)) as Hfin.
  destruct (Json.decodeGeocodeResponse ParseFloat foldName j zeroGeocodeResponse None)
    as [resp [e|]]; [discriminate|]. cbn in Hfin. cbn [option_map].
  destruct (Features resp) as [|feature rest]; [discriminate|].
  inversion Hfin as [|? ? Hc _]; subst. unfold finiteCenter in Hc.
  unfold locationOf, index.
  destruct (Center feature) as [|lon [|lat more]]; cbn; try discriminate.
  intros [= <-].
  destruct (scan_keeps (Feature_Context feature)
              (mkLocationInfo lat lon sentinel sentinel sentinel
                 (Feature_PlaceName feature))) as (H1 & H2 & _).
  inversion Hc as [|? ? Hlon Hc']; subst. inversion Hc' as [|? ? Hlat _]; subst.
  split; [rewrite H2|rewrite H1]; assumption.
Qed.

(** So the coordinates of two geocoded locations are all printed with six
    decimals in the route query. *)
Lemma geocoded_coordinates_six_decimals address1 address2 accessToken start end_ :
  geocodeAddress ParseFloat foldName UnmarshalErrorText http_Get address1 accessToken
    = Success start ->
  geocodeAddress ParseFloat foldName UnmarshalErrorText http_Get address2 accessToken
    = Success end_ ->
  SixDecimals (Fmt.f6 (Longitude start)) /\ SixDecimals (Fmt.f6 (Latitude start)) /\
  SixDecimals (Fmt.f6 (Longitude end_)) /\ SixDecimals (Fmt.f6 (Latitude end_)).
Proof.
  intros H1 H2.
  destruct (geocodeAddress_finite _ _ _ H1) as [Ha Hb].
  destruct (geocodeAddress_finite _ _ _ H2) as [Hc Hd].
  repeat split; now apply f6_finite.
Qed.

End DecodedNumbers.

(** ** The route query *)

Section RouteQuery.

Variable ParseFloat : string -> option float64.
Variable foldName : string -> string.
Variable UnmarshalErrorText : string -> Body -> string.
Variable http_Get : string -> GetResult.

(** C5, as the code has it: for two locations with finite coordinates,
    [getDistance] sends its request to the directions endpoint followed by
    the origin's longitude and latitude, a semicolon, and the destination's
    longitude and latitude, each printed with exactly six digits after the
    decimal point: the answer to that URL, and to no other, decides the
    outcome. *)
Theorem getDistance_coordinates (start end_ : LocationInfo) (accessToken : string) :
  finiteLocation start -> finiteLocation end_ ->
  let query :=
    (Fmt.f6 (Longitude start) ++ "," ++ Fmt.f6 (Latitude start) ++ ";" ++
     Fmt.f6 (Longitude end_) ++ "," ++ Fmt.f6 (Latitude end_))%string in
  let apiURL :=
    ("https://api.mapbox.com/directions/v5/mapbox/driving/"
     ++ query ++ "?access_token=" ++ accessToken ++ "&geometries=geojson")%string in
  (forall cause,
     http_Get apiURL = GetErr cause ->
     getDistance ParseFloat foldName UnmarshalErrorText http_Get start end_ accessToken
       = Failure NetworkError (Errorf "помилка HTTP запиту: " cause)) /\
  (forall other : string -> GetResult,
     other apiURL = http_Get apiURL ->
     getDistance ParseFloat foldName UnmarshalErrorText other start end_ accessToken
       = getDistance ParseFloat foldName UnmarshalErrorText http_Get start end_ accessToken) /\
  SixDecimals (Fmt.f6 (Longitude start)) /\
  SixDecimals (Fmt.f6 (Latitude start)) /\
  SixDecimals (Fmt.f6 (Longitude end_)) /\
  SixDecimals (Fmt.f6 (Latitude end_)).
Proof.
  intros [Hs1 Hs2] [He1 He2] query apiURL.
  assert (Hurl : directionsURL start end_ accessToken = apiURL) by reflexivity.
  split.
  { intros cause Hget. unfold getDistance. rewrite Hurl, Hget. reflexivity. }
  split.
  { intros other Ho. unfold getDistance. rewrite Hurl, Ho. reflexivity. }
  repeat split; now apply f6_finite.
Qed.

End RouteQuery.

(** C5, as stated, fails: a [LocationInfo] may hold a NaN, which [%.6f]
    prints as [NaN], with no decimals. *)
Lemma coordinates_of_NaN_location :
  coordinates Example.nowhere Example.empireState
    = "NaN,NaN;-73.985428,40.748817" /\
  ~ SixDecimals (Fmt.f6 (Longitude Example.nowhere)).
Proof.
  split; [reflexivity|].
  assert (Hnan : Fmt.f6 (Longitude Example.nowhere) = "NaN") by reflexivity.
  rewrite Hnan. intros (sg & whole & frac & Heq & _ & _ & _ & _ & Hlen).
  apply (f_equal String.length) in Heq. rewrite !length_app in Heq.
  cbn [String.length] in Heq. lia.
Qed.

(** ** The geocoding URL *)

Lemma QueryEscape_encodeBytes (s : string) : URL.QueryEscape s = encodeBytes s.
Proof.
  induction s as [|c s IH]; cbn [URL.QueryEscape encodeBytes]; [reflexivity|].
  rewrite IH. unfold encodeByte, unreserved, URL.shouldEscape, percentEncoded.
  destruct (URL.isAlnum c); cbn [orb]; [reflexivity|].
  destruct (Ascii.eqb c "-" || Ascii.eqb c "_" || Ascii.eqb c "." || Ascii.eqb c "~")%char;
    [reflexivity|].
  destruct (Ascii.eqb c " "); reflexivity.
Qed.

Lemma occurs_app (c : ascii) (s t : string) :
  occurs c (s ++ t) = occurs c s || occurs c t.
Proof.
  induction s as [|d s IH]; cbn; [reflexivity|].
  rewrite IH. apply orb_assoc.
Qed.

Lemma upperhex_not_space (n : nat) : Ascii.eqb " " (URL.upperhex n) = false.
Proof.
  do 16 (destruct n as [|n]; [reflexivity|]). reflexivity.
Qed.

Lemma encodeByte_no_space (c : ascii) : occurs " " (encodeByte c) = false.
Proof.
  unfold encodeByte.
  destruct (unreserved c) eqn:Hu.
  - cbn [occurs]. rewrite orb_false_r.
    destruct (Ascii.eqb_spec " " c) as [<-|]; [discriminate Hu|reflexivity].
  - destruct (Ascii.eqb c " "); [reflexivity|].
    unfold percentEncoded. cbn [occurs]. now rewrite !upperhex_not_space.
Qed.

Lemma encodeBytes_no_space (s : string) : occurs " " (encodeBytes s) = false.
Proof.
  induction s as [|c s IH]; [reflexivity|].
  cbn [encodeBytes]. now rewrite occurs_app, encodeByte_no_space, IH.
Qed.

(** C7, as the code has it: the geocoding URL is the place-search endpoint,
    then the address with every byte other than a letter, a digit or one of
    [-_.~] escaped (a space as [+], any other byte as [%XX]), then [.json]
    and the access token as the [access_token] query parameter. *)
Theorem geocodeURL_query_escaped (address accessToken : string) :
  geocodeURL address accessToken =
    ("https://api.mapbox.com/geocoding/v5/mapbox.places/"
     ++ encodeBytes address ++ ".json?access_token=" ++ accessToken)%string /\
  occurs " " (encodeBytes address) = false.
Proof.
  split.
  - unfold geocodeURL. now rewrite QueryEscape_encodeBytes.
  - apply encodeBytes_no_space.
Qed.

(** C7, as stated, fails: a space in the address is sent as [+], not as the
    percent-encoded [%20]. *)
Lemma geocodeURL_space_is_plus :
  geocodeURL "Main Street" "token" =
    "https://api.mapbox.com/geocoding/v5/mapbox.places/Main+Street.json?access_token=token" /\
  geocodeURL "Main Street" "token" <>
    ("https://api.mapbox.com/geocoding/v5/mapbox.places/"
     ++ "Main" ++ percentEncoded " " ++ "Street" ++ ".json?access_token=token")%string.
Proof.
  split; [reflexivity|]. vm_compute. discriminate.
Qed.

(** ** Ranges, short centers and foreign bodies *)

Section Responses.

Variable ParseFloat : string -> option float64.
Variable foldName : string -> string.
Variable UnmarshalErrorText : string -> Body -> string.
Variable http_Get : string -> GetResult.

Local Notation geocode := (geocodeAddress ParseFloat foldName UnmarshalErrorText http_Get).
Local Notation decodeGeocode :=
  (Json.Unmarshal (Json.decodeGeocodeResponse ParseFloat foldName)).

(** C8, as the code has it: [geocodeAddress] copies the provider's
    coordinates unchecked, so the location it returns is within the WGS84
    ranges exactly when the first feature's center is. *)
Theorem geocodeAddress_range_is_the_providers
    address accessToken body geocodeResp feature rest lon lat more :
  http_Get (geocodeURL address accessToken) = GetOk (ReadOk body) ->
  decodeGeocode body zeroGeocodeResponse = (geocodeResp, None) ->
  Features geocodeResp = feature :: rest ->
  Center feature = lon :: lat :: more ->
  exists location,
    geocode address accessToken = Success location /\
    inRange location = validLatitude lat && validLongitude lon.
Proof.
  intros Hget Hdec Hf Hc.
  first_feature Hf Hc.
  eexists; split; [reflexivity|].
  destruct (scan_keeps (Feature_Context feature)
              (mkLocationInfo lat lon sentinel sentinel sentinel
                 (Feature_PlaceName feature))) as (H1 & H2 & _).
  unfold inRange. rewrite H1, H2. reflexivity.
Qed.

Lemma decodeMembers_unknown {S} names (field : nat -> Json.decoder S) members s sv :
  Forall (fun m => Json.lookupField foldName names (fst m) = None) members ->
  Json.decodeMembers foldName names field members s sv = (s, sv).
Proof.
  induction 1 as [|[key v] members Hk _ IH]; cbn; [reflexivity|].
  cbn in Hk. now rewrite Hk.
Qed.

(** C10, as the code has it: a body that is a JSON object none of whose
    member names selects the [type] or [features] field decodes without
    error to an empty feature list, and the call fails at the not-found
    return; a body that is a JSON array, string, number or boolean is a
    decode failure. *)
Theorem foreign_body_outcome :
  (forall address accessToken members,
     http_Get (geocodeURL address accessToken)
       = GetOk (ReadOk (JSON (JObject members))) ->
     Forall (fun m => Json.lookupField foldName ["type"; "features"] (fst m) = None)
       members ->
     decodeGeocode (JSON (JObject members)) zeroGeocodeResponse
       = (zeroGeocodeResponse, None) /\
     geocode address accessToken =
       Failure NotFoundError (errorString "адресу не знайдено")) /\
  (forall address accessToken j,
     http_Get (geocodeURL address accessToken) = GetOk (ReadOk (JSON j)) ->
     notAnObject j = true ->
     exists err, geocode address accessToken = Failure DecodeError err).
Proof.
  split.
  - intros address accessToken members Hget Hunknown.
    assert (Hdec : decodeGeocode (JSON (JObject members)) zeroGeocodeResponse
                   = (zeroGeocodeResponse, None)).
    { unfold Json.Unmarshal, Json.decodeGeocodeResponse, Json.decodeStruct.
      now rewrite decodeMembers_unknown. }
    split; [exact Hdec|].
    rewrite (geocodeAddress_decoded _ _ _ _ _ _ _ _ Hget Hdec). reflexivity.
  - intros address accessToken j Hget Hj.
    unfold geocodeAddress. rewrite Hget.
    destruct j; try discriminate Hj; cbn; eexists; reflexivity.
Qed.

End Responses.

(** C8, as stated, fails: a response whose first feature has
    [center = [200, 100]] yields a location outside both ranges. *)
Lemma geocodeAddress_accepts_out_of_range :
  exists location,
    Example.geocode (Example.answering Example.bodyFarAway) "far away" "token"
      = Success location /\
    Longitude location = 200%float /\ Latitude location = 100%float /\
    inRange location = false.
Proof.
  eexists. split; [vm_compute; reflexivity|]. repeat split.
Qed.

(** A feature whose [center] has fewer than two elements makes the index
    expressions of line 94 or 95 panic. *)
Lemma locationOf_short_center (feature : Feature) :
  List.length (Center feature) < 2 ->
  exists msg, locationOf feature = Panic msg.
Proof.
  unfold locationOf, index.
  destruct (Center feature) as [|lon [|lat more]]; cbn -[append decimal]; intro H.
  - eexists; reflexivity.
  - eexists; reflexivity.
  - lia.
Qed.

(** C6, as stated, fails: a first feature with no context entry and no
    center does not give a location. *)
Lemma empty_context_without_center :
  exists geocodeResp feature rest,
    Json.Unmarshal (Json.decodeGeocodeResponse Example.ParseFloat Example.foldName)
      Example.bodyNoCenter zeroGeocodeResponse = (geocodeResp, None) /\
    Features geocodeResp = feature :: rest /\
    Feature_Context feature = [] /\
    forall location,
      Example.geocode (Example.answering Example.bodyNoCenter) "Some City" "token"
        <> Success location.
Proof.
  exists (mkGeocodeResponse "FeatureCollection"
            [mkFeature "Feature" "Somewhere 1, Some City" [] []]),
         (mkFeature "Feature" "Somewhere 1, Some City" [] []), [].
  repeat split. intros location. vm_compute. discriminate.
Qed.

(** C9: on a response whose first feature has an empty [center], the index
    expression [feature.Center[0]] panics; no error is returned. *)
Theorem geocodeAddress_short_center_panics :
  Example.geocode (Example.answering Example.bodyNoCenter) "somewhere" "token"
    = Panic "runtime error: index out of range [0] with length 0".
Proof. vm_compute. reflexivity. Qed.

(** C10, as stated, fails: a body that is valid JSON and matches nothing of
    the geocoding schema, the empty array, is a decode failure. *)
Lemma array_body_is_decode_failure :
  exists err,
    Example.geocode (Example.answering Example.bodyArray) "somewhere" "token"
      = Failure DecodeError err /\
    Example.geocode (Example.answering Example.bodyArray) "somewhere" "token"
      <> Failure NotFoundError (errorString "адресу не знайдено").
Proof.
  eexists. split; [vm_compute; reflexivity|]. vm_compute. discriminate.
Qed.

(** ** The properties on the examples *)

Lemma geocodeAddress_center_order_example :
  exists location,
    Example.geocode (Example.answering Example.bodyRegions) "Some City" "token"
      = Success location /\
    Longitude location = 10.5%float /\ Latitude location = 50.2%float.
Proof.
  unfold Example.geocode.
  eapply geocodeAddress_center_order with (body := Example.bodyRegions);
    reflexivity.
Defined.

Lemma geocodeAddress_last_match_wins_example :
  exists location,
    Example.geocode (Example.answering Example.bodyRegions) "Some City" "token"
      = Success location /\
    Country location = sentinel /\ Region location = "B" /\ City location = sentinel.
Proof.
  destruct (geocodeAddress_last_match_wins Example.ParseFloat Example.foldName
              Example.UnmarshalErrorText (Example.answering Example.bodyRegions)
              "Some City" "token" Example.bodyRegions
              (mkGeocodeResponse "FeatureCollection" [Example.featureRegions])
              Example.featureRegions [] 10.5%float 50.2%float [])
    as (location & Hrun & Hc & Hr & Hp); try reflexivity.
  exists location. exact (conj Hrun (conj Hc (conj Hr Hp))).
Defined.

Lemma empty_list_is_not_found_example :
  Example.geocode (Example.answering Example.bodyNoFeatures) "nowhere" "token"
    = Failure NotFoundError (errorString "адресу не знайдено") /\
  Example.distance (Example.answering Example.bodyNoRoutes)
      Example.empireState Example.brooklynBridge "token"
    = Failure NotFoundError (errorString "маршрут не знайдено").
Proof.
  split.
  - eapply (proj1 (empty_list_is_not_found Example.ParseFloat Example.foldName
                     Example.UnmarshalErrorText
                     (Example.answering Example.bodyNoFeatures)));
      reflexivity.
  - eapply (proj2 (empty_list_is_not_found Example.ParseFloat Example.foldName
                     Example.UnmarshalErrorText
                     (Example.answering Example.bodyNoRoutes)));
      reflexivity.
Defined.

Lemma failure_kind_is_in_message_text_example :
  kindOfMessage "помилка HTTP запиту: dial tcp: connection refused" = Some NetworkError /\
  kindOfMessage "маршрут не знайдено" = Some NotFoundError.
Proof.
  split.
  - apply (proj1 (failure_kind_is_in_message_text Example.ParseFloat Example.foldName
                    Example.UnmarshalErrorText Example.unreachable)
             "nowhere" "token" NetworkError
             (errorString "помилка HTTP запиту: dial tcp: connection refused")).
    reflexivity.
  - apply (proj2 (failure_kind_is_in_message_text Example.ParseFloat Example.foldName
                    Example.UnmarshalErrorText
                    (Example.answering Example.bodyNoRoutes))
             Example.empireState Example.brooklynBridge "token" NotFoundError
             (errorString "маршрут не знайдено")).
    reflexivity.
Defined.

Lemma getDistance_coordinates_example :
  Example.distance Example.unreachable Example.empireState Example.brooklynBridge
      "token"
    = Failure NetworkError
        (errorString "помилка HTTP запиту: dial tcp: connection refused") /\
  SixDecimals "-73.985428" /\ SixDecimals "40.748817" /\
  SixDecimals "-73.996864" /\ SixDecimals "40.706086".
Proof.
  destruct (getDistance_coordinates Example.ParseFloat Example.foldName
              Example.UnmarshalErrorText Example.unreachable
              Example.empireState Example.brooklynBridge "token")
    as (Hrun & _ & H1 & H2 & H3 & H4).
  - split; reflexivity.
  - split; reflexivity.
  - exact (conj (Hrun "dial tcp: connection refused" eq_refl)
             (conj H1 (conj H2 (conj H3 H4)))).
Defined.

Lemma geocodeAddress_empty_context_example :
  Example.geocode (Example.answering Example.bodyNoContext) "Some City" "token"
    = Success (mkLocationInfo 50.2%float 10.5%float sentinel sentinel sentinel
                 "Somewhere 1, Some City").
Proof.
  apply (geocodeAddress_empty_context Example.ParseFloat Example.foldName
           Example.UnmarshalErrorText (Example.answering Example.bodyNoContext)
           "Some City" "token" Example.bodyNoContext
           (mkGeocodeResponse "FeatureCollection" [Example.featureNoContext])
           Example.featureNoContext [] 10.5%float 50.2%float []);
    reflexivity.
Defined.

Lemma geocodeAddress_range_is_the_providers_example :
  exists location,
    Example.geocode (Example.answering Example.bodyRegions) "Some City" "token"
      = Success location /\
    inRange location = true.
Proof.
  unfold Example.geocode.
  eapply (geocodeAddress_range_is_the_providers Example.ParseFloat Example.foldName
            Example.UnmarshalErrorText (Example.answering Example.bodyRegions)
            "Some City" "token" Example.bodyRegions _ _ _ 10.5%float 50.2%float);
    reflexivity.
Defined.

Lemma foreign_body_outcome_example :
  Example.geocode (Example.answering Example.bodyUnauthorized) "Some City" "token"
    = Failure NotFoundError (errorString "адресу не знайдено") /\
  exists err,
    Example.geocode (Example.answering Example.bodyArray) "Some City" "token"
      = Failure DecodeError err.
Proof.
  split.
  - apply (proj1 (foreign_body_outcome Example.ParseFloat Example.foldName
                    Example.UnmarshalErrorText
                    (Example.answering Example.bodyUnauthorized))
             "Some City" "token" [("message", JString "unauthorized")]).
    + reflexivity.
    + repeat constructor.
  - apply (proj2 (foreign_body_outcome Example.ParseFloat Example.foldName
                    Example.UnmarshalErrorText
                    (Example.answering Example.bodyArray))
             "Some City" "token" (JArray [])); reflexivity.
Defined.

(** * Further properties *)

(** ** Panics *)

Section Panics.

Variable ParseFloat : string -> option float64.
Variable foldName : string -> string.
Variable UnmarshalErrorText : string -> Body -> string.
Variable http_Get : string -> GetResult.

Local Notation geocode := (geocodeAddress ParseFloat foldName UnmarshalErrorText http_Get).
Local Notation decodeGeocode :=
  (Json.Unmarshal (Json.decodeGeocodeResponse ParseFloat foldName)).

Lemma locationOf_panics_iff feature :
  (exists msg, locationOf feature = Panic msg) <-> List.length (Center feature) < 2.
Proof.
  split.
  - intros [msg H]. unfold locationOf, index in H.
    destruct (Center feature) as [|lon [|lat more]]; cbn -[append decimal] in *;
      try lia; discriminate.
  - apply locationOf_short_center.
Qed.

(** X2: [geocodeAddress] panics exactly when the response was received and
    decoded without error, has a feature, and the first feature's [center]
    has fewer than two elements. *)
Theorem geocodeAddress_panics_iff address accessToken :
  (exists msg, geocode address accessToken = Panic msg) <->
  (exists body geocodeResp feature rest,
     http_Get (geocodeURL address accessToken) = GetOk (ReadOk body) /\
     decodeGeocode body zeroGeocodeResponse = (geocodeResp, None) /\
     Features geocodeResp = feature :: rest /\
     List.length (Center feature) < 2).
Proof.
  split.
  - intros [msg H]. unfold geocodeAddress in H.
    destruct (http_Get (geocodeURL address accessToken)) as [cause|[cause|body]] eqn:Hget;
      try discriminate.
    destruct (decodeGeocode body zeroGeocodeResponse) as [resp [e|]] eqn:Hdec;
      try discriminate.
    destruct (Features resp) as [|feature rest] eqn:Hf; try discriminate.
    exists body, resp, feature, rest. repeat split; auto.
    apply locationOf_panics_iff. eauto.
  - intros (body & resp & feature & rest & Hget & Hdec & Hf & Hlen).
    erewrite geocodeAddress_decoded by eassumption. rewrite Hf.
    now apply locationOf_short_center.
Qed.

End Panics.

(** ** Context entries of other kinds *)

Lemma scanContext_irrelevant location ctx :
  relevant ctx = false -> scanContext location ctx = location.
Proof.
  unfold relevant, scanContext. intro H.
  apply orb_false_iff in H as [H Hp]. apply orb_false_iff in H as [Hc Hr].
  now rewrite Hc, Hr, Hp.
Qed.

Lemma scan_filter_relevant ctxs location :
  fold_left scanContext (filter relevant ctxs) location
  = fold_left scanContext ctxs location.
Proof.
  revert location. induction ctxs as [|c ctxs IH]; intro location; [reflexivity|].
  cbn [filter fold_left]. destruct (relevant c) eqn:Hc.
  - cbn [fold_left]. apply IH.
  - rewrite (scanContext_irrelevant _ _ Hc). apply IH.
Qed.

(** X3: context entries whose id begins with none of ["country"],
    ["region"], ["place"] (a postcode, a district, ...) have no effect:
    dropping them from a feature gives the same result. *)
Theorem locationOf_ignores_other_entries feature :
  locationOf (mkFeature (Feature_Type feature) (Feature_PlaceName feature)
                (Center feature) (filter relevant (Feature_Context feature)))
  = locationOf feature.
Proof.
  unfold locationOf. cbn [Center Feature_Context Feature_PlaceName].
  destruct (index (Center feature) 0) as [lon| |]; cbn [bind]; try reflexivity.
  destruct (index (Center feature) 1) as [lat| |]; cbn [bind]; try reflexivity.
  now rewrite scan_filter_relevant.
Qed.

(** ** Escaping *)

Lemma unhex_upperhex n : n < 16 -> unhex (URL.upperhex n) = n.
Proof.
  intro H. do 16 (destruct n as [|n]; [reflexivity|]). lia.
Qed.

Lemma byte_of_hex c :
  ascii_of_nat (16 * (nat_of_ascii c / 16) + nat_of_ascii c mod 16) = c.
Proof.
  rewrite <- Nat.div_mod_eq. apply ascii_nat_embedding.
Qed.

Lemma unreserved_not_marks c :
  URL.shouldEscape c = false -> Ascii.eqb c "+" = false /\ Ascii.eqb c "%" = false.
Proof.
  intro H. split.
  - destruct (Ascii.eqb_spec c "+") as [->|]; [discriminate H|reflexivity].
  - destruct (Ascii.eqb_spec c "%") as [->|]; [discriminate H|reflexivity].
Qed.

Lemma unescape_QueryEscape s : unescape (URL.QueryEscape s) = s.
Proof.
  induction s as [|c s IH]; [reflexivity|].
  cbn [URL.QueryEscape].
  destruct (URL.shouldEscape c) eqn:He.
  - destruct (Ascii.eqb_spec c " ") as [->|Hsp].
    + cbn [unescape]. now rewrite IH.
    + cbn [unescape]. change (Ascii.eqb "%" "+") with false.
      change (Ascii.eqb "%" "%") with true. cbn iota.
      assert (Hc : nat_of_ascii c < 256) by apply nat_ascii_bounded.
      rewrite !unhex_upperhex, byte_of_hex, IH; [reflexivity| |].
      * apply Nat.mod_upper_bound. discriminate.
      * apply Nat.Div0.div_lt_upper_bound. exact Hc.
  - destruct (unreserved_not_marks c He) as [Hp Hq].
    cbn [unescape]. now rewrite Hp, Hq, IH.
Qed.

Lemma append_cancel_l (b x y : string) : (b ++ x = b ++ y)%string -> x = y.
Proof.
  induction b as [|a b IH]; cbn; [auto|]. intros [= H]. auto.
Qed.

Lemma append_cancel_r (x y suffix : string) :
  (x ++ suffix = y ++ suffix)%string -> x = y.
Proof.
  intro H.
  assert (Hl : String.length x = String.length y).
  { apply (f_equal String.length) in H. rewrite !length_app in H. lia. }
  revert y Hl H. induction x as [|a x IH]; intros [|b y]; cbn;
    try discriminate; [reflexivity|].
  intros [= Hl] [= -> H]. f_equal. now apply IH.
Qed.

(** X4: escaping loses nothing: two different addresses never give the same
    geocoding URL (for one access token). *)
Theorem geocodeURL_injective address1 address2 accessToken :
  address1 <> address2 ->
  geocodeURL address1 accessToken <> geocodeURL address2 accessToken.
Proof.
  intros Hne Heq. apply Hne. unfold geocodeURL in Heq. cbv zeta in Heq.
  apply append_cancel_l in Heq. apply append_cancel_r in Heq.
  rewrite <- (unescape_QueryEscape address1), <- (unescape_QueryEscape address2).
  now rewrite Heq.
Qed.

Lemma upperhex_urlSafe n : urlSafe (URL.upperhex n) = true.
Proof.
  do 16 (destruct n as [|n]; [reflexivity|]). reflexivity.
Qed.

(** X5: the escaped address consists only of letters, digits and the marks
    [-_.~+%]; in particular it holds no [/], [?], [#] or [&] that would
    change the structure of the request URL. *)
Theorem QueryEscape_url_safe address :
  allChars urlSafe (URL.QueryEscape address) = true /\
  occurs "/" (URL.QueryEscape address) = false /\
  occurs "?" (URL.QueryEscape address) = false /\
  occurs "#" (URL.QueryEscape address) = false /\
  occurs "&" (URL.QueryEscape address) = false.
Proof.
  assert (Hsafe : allChars urlSafe (URL.QueryEscape address) = true).
  { induction address as [|c s IH]; [reflexivity|].
    cbn [URL.QueryEscape].
    destruct (URL.shouldEscape c) eqn:He.
    - destruct (Ascii.eqb c " ").
      + cbn [allChars]. now rewrite IH.
      + cbn [allChars]. now rewrite !upperhex_urlSafe, IH.
    - cbn [allChars]. rewrite IH, andb_true_r.
      unfold urlSafe, unreserved. unfold URL.shouldEscape in He.
      destruct (URL.isAlnum c); [reflexivity|].
      destruct (Ascii.eqb c "-" || Ascii.eqb c "_" || Ascii.eqb c "." || Ascii.eqb c "~")%char;
        [reflexivity|discriminate He]. }
  split; [exact Hsafe|].
  assert (Hno : forall d, urlSafe d = false ->
                  occurs d (URL.QueryEscape address) = false).
  { intros d Hd. revert Hsafe. generalize (URL.QueryEscape address).
    induction s as [|c s IH]; [reflexivity|].
    cbn [allChars occurs]. intro H. apply andb_true_iff in H as [Hc Hs].
    rewrite (IH Hs), orb_false_r.
    destruct (Ascii.eqb_spec d c) as [->|]; [congruence|reflexivity]. }
  repeat split; apply Hno; reflexivity.
Qed.

(** ** The configuration file *)

Lemma decodeMapMembers_app members1 members2 m sv :
  decodeMapMembers (members1 ++ members2) m sv =
  let '(m1, sv1) := decodeMapMembers members1 m sv in
  decodeMapMembers members2 m1 sv1.
Proof.
  revert m sv. induction members1 as [|[key v] members1 IH]; intros m sv; [reflexivity|].
  cbn [app decodeMapMembers].
  destruct (Json.decodeString v "" sv) as [elem sv1]. apply IH.
Qed.

Lemma decodeString_value v sv :
  fst (Json.decodeString v "" sv) =
  match v with JString s => s | _ => "" end.
Proof. destruct v; reflexivity. Qed.

Lemma mapIndex_decoded key members :
  forall sv,
    mapIndex (fst (decodeMapMembers members [] sv)) key =
    match lastMember key members with
    | Some (JString s) => s
    | _ => ""
    end.
Proof.
  induction members as [|[k v] members IH] using rev_ind; intro sv; [reflexivity|].
  rewrite decodeMapMembers_app.
  specialize (IH sv).
  destruct (decodeMapMembers members [] sv) as [m1 sv1]. cbn [fst] in IH.
  cbn [decodeMapMembers].
  pose proof (decodeString_value v sv1) as Hv.
  destruct (Json.decodeString v "" sv1) as [elem sv2]. cbn [fst] in *.
  unfold lastMember. rewrite rev_app_distr. cbn [rev app find fst].
  unfold mapIndex. cbn [find fst].
  destruct (String.eqb k key); cbn [option_map snd].
  - rewrite Hv. destruct v; reflexivity.
  - exact IH.
Qed.

(** X6: [loadToken] never fails: it returns the string held by the last
    [mapbox_access_token] member (matched exactly) when the file is a JSON
    object and that member is a string, and the empty string in every other
    case: unreadable file, bytes that are not JSON, a JSON value that is not
    an object, no such member, or a member that is not a string. *)
Theorem loadToken_configured data : loadToken data = configuredToken data.
Proof.
  unfold loadToken, configuredToken, Json.Unmarshal.
  destruct data as [raw|j]; [reflexivity|].
  destruct j; try reflexivity.
  cbn [decodeStringMap].
  pose proof (mapIndex_decoded "mapbox_access_token" members None) as H.
  destruct (decodeMapMembers members [] None) as [config sv]. exact H.
Qed.

(** ** Decoding a provider answer *)

Lemma saveError_some e sv : Json.saveError e sv <> None.
Proof. destruct sv; discriminate. Qed.

Lemma mismatch_fails {A} j ty (old : A) sv : snd (Json.mismatch j ty old sv) <> None.
Proof. apply saveError_some. Qed.

Lemma decodeString_sticky : sticky Json.decodeString.
Proof.
  intros j old sv Hsv. destruct j; cbn; auto using saveError_some.
Qed.

Lemma decodeItems_sticky {A} (elem : Json.decoder A) zero :
  sticky elem ->
  forall items old sv,
    sv <> None -> snd (Json.decodeItems elem zero items old sv) <> None.
Proof.
  intros He. induction items as [|j items IH]; intros old sv Hsv;
    cbn [Json.decodeItems]; [exact Hsv|].
  pose proof (He j (match old with [] => zero | a :: _ => a end) sv Hsv) as H1.
  destruct (elem j _ sv) as [a sv1]. cbn [snd] in H1.
  specialize (IH (tl old) sv1 H1).
  destruct (Json.decodeItems elem zero items (tl old) sv1) as [l sv2]. exact IH.
Qed.

Lemma decodeSlice_sticky {A} (elem : Json.decoder A) zero ty :
  sticky elem -> sticky (Json.decodeSlice elem zero ty).
Proof.
  intros He j old sv Hsv. unfold Json.decodeSlice.
  destruct j; cbn; auto using saveError_some. now apply decodeItems_sticky.
Qed.

Lemma intoField_sticky {S F} (get : S -> F) set (d : Json.decoder F) :
  sticky d -> sticky (Json.intoField get set d).
Proof.
  intros Hd j s sv Hsv. unfold Json.intoField.
  pose proof (Hd j (get s) sv Hsv) as H.
  destruct (d j (get s) sv) as [v sv1]. exact H.
Qed.

Section Sticky.

Variable ParseFloat : string -> option float64.
Variable foldName : string -> string.

Lemma decodeFloat64_sticky : sticky (Json.decodeFloat64 ParseFloat).
Proof.
  intros j old sv Hsv. destruct j; cbn; auto using saveError_some.
  destruct (ParseFloat lit); cbn; auto using saveError_some.
Qed.

Lemma decodeMembers_sticky {S} names (field : nat -> Json.decoder S) :
  (forall i, sticky (field i)) ->
  forall members s sv, sv <> None ->
    snd (Json.decodeMembers foldName names field members s sv) <> None.
Proof.
  intro Hf. induction members as [|[key v] members IH]; intros s sv Hsv; cbn;
    [exact Hsv|].
  destruct (Json.lookupField foldName names key) as [i|]; [|now apply IH].
  pose proof (Hf i v s sv Hsv) as H1.
  destruct (field i v s sv) as [s1 sv1]. now apply IH.
Qed.

Lemma decodeStruct_sticky {S} names (field : nat -> Json.decoder S) ty :
  (forall i, sticky (field i)) ->
  sticky (Json.decodeStruct foldName names field ty).
Proof.
  intros Hf j old sv Hsv. unfold Json.decodeStruct.
  destruct j; cbn; auto using saveError_some. now apply decodeMembers_sticky.
Qed.

Lemma decodeContext_sticky : sticky (Json.decodeContext foldName).
Proof.
  apply decodeStruct_sticky. intros [|i]; apply intoField_sticky, decodeString_sticky.
Qed.

Lemma decodeFeature_sticky : sticky (Json.decodeFeature ParseFloat foldName).
Proof.
  apply decodeStruct_sticky. intros [|[|[|i]]]; apply intoField_sticky.
  - apply decodeString_sticky.
  - apply decodeString_sticky.
  - apply decodeSlice_sticky, decodeFloat64_sticky.
  - apply decodeSlice_sticky, decodeContext_sticky.
Qed.

Lemma decodeGeocodeResponse_field_sticky i :
  sticky (match i with
          | 0 => Json.intoField GeocodeResponse_Type
                   (fun v r => mkGeocodeResponse v (Features r)) Json.decodeString
          | _ => Json.intoField Features
                   (fun v r => mkGeocodeResponse (GeocodeResponse_Type r) v)
                   (Json.decodeSlice (Json.decodeFeature ParseFloat foldName)
                      zeroFeature "[]main.Feature")
          end).
Proof.
  destruct i; apply intoField_sticky.
  - apply decodeString_sticky.
  - apply decodeSlice_sticky, decodeFeature_sticky.
Qed.

(** An element that is not an object leaves a type error, whatever comes
    before or after it. *)
Lemma decodeItems_bad_feature items bad old sv :
  In bad items -> notAnObject bad = true ->
  snd (Json.decodeItems (Json.decodeFeature ParseFloat foldName) zeroFeature items
         old sv)
    <> None.
Proof.
  intros Hin Hbad. revert old sv.
  induction items as [|j items IH]; intros old sv; [destruct Hin|].
  cbn [Json.decodeItems].
  set (cell := match old with [] => zeroFeature | a :: _ => a end).
  destruct Hin as [->|Hin].
  - assert (H1 : snd (Json.decodeFeature ParseFloat foldName bad cell sv) <> None).
    { unfold Json.decodeFeature, Json.decodeStruct.
      destruct bad; try discriminate Hbad; apply mismatch_fails. }
    destruct (Json.decodeFeature ParseFloat foldName bad cell sv) as [a sv1].
    cbn [snd] in H1.
    pose proof (decodeItems_sticky _ zeroFeature decodeFeature_sticky items
                  (tl old) sv1 H1) as H2.
    destruct (Json.decodeItems _ zeroFeature items (tl old) sv1) as [l sv2]. exact H2.
  - destruct (Json.decodeFeature ParseFloat foldName j cell sv) as [a sv1].
    specialize (IH Hin (tl old) sv1).
    destruct (Json.decodeItems _ zeroFeature items (tl old) sv1) as [l sv2]. exact IH.
Qed.

Lemma decodeMembers_bad_feature members items bad :
  In ("features", JArray items) members ->
  In bad items -> notAnObject bad = true ->
  forall r sv,
    snd (Json.decodeMembers foldName ["type"; "features"]
           (fun i =>
              match i with
              | 0 => Json.intoField GeocodeResponse_Type
                       (fun v r => mkGeocodeResponse v (Features r)) Json.decodeString
              | _ => Json.intoField Features
                       (fun v r => mkGeocodeResponse (GeocodeResponse_Type r) v)
                       (Json.decodeSlice (Json.decodeFeature ParseFloat foldName)
                          zeroFeature "[]main.Feature")
              end) members r sv) <> None.
Proof.
  intros Hm Hin Hbad.
  induction members as [|[key v] members IH]; intros r sv; [destruct Hm|].
  cbn [Json.decodeMembers].
  destruct Hm as [[= -> ->]|Hm].
  - change (Json.lookupField foldName ["type"; "features"] "features") with (Some 1).
    cbv beta iota. unfold Json.intoField at 1. cbn [Json.decodeSlice].
    pose proof (decodeItems_bad_feature items bad (Features r) sv Hin Hbad) as H1.
    destruct (Json.decodeItems _ zeroFeature items (Features r) sv) as [l sv1].
    cbn [snd] in H1.
    apply decodeMembers_sticky; [apply decodeGeocodeResponse_field_sticky|exact H1].
  - destruct (Json.lookupField foldName ["type"; "features"] key) as [i|];
      [|now apply IH].
    match goal with
    | |- context [let '(s1, sv1) := ?x in _] => destruct x as [s1 sv1]
    end.
    now apply IH.
Qed.

Variable UnmarshalErrorText : string -> Body -> string.
Variable http_Get : string -> GetResult.

(** X7: decoding is all or nothing: when any element of the [features]
    array is not a JSON object, [geocodeAddress] fails with a decode error,
    also when that element is not the first and the first would have given
    a location. *)
Theorem malformed_candidate_fails_decoding address accessToken members items bad :
  http_Get (geocodeURL address accessToken) = GetOk (ReadOk (JSON (JObject members))) ->
  In ("features", JArray items) members ->
  In bad items -> notAnObject bad = true ->
  exists err,
    geocodeAddress ParseFloat foldName UnmarshalErrorText http_Get address accessToken
      = Failure DecodeError err.
Proof.
  intros Hget Hm Hin Hbad. unfold geocodeAddress. rewrite Hget.
  unfold Json.Unmarshal, Json.decodeGeocodeResponse, Json.decodeStruct.
  pose proof (decodeMembers_bad_feature members items bad Hm Hin Hbad
                zeroGeocodeResponse None) as H.
  match type of H with
  | snd ?x <> None => destruct x as [a [e|]]
  end; [|now destruct H].
  cbn. eexists; reflexivity.
Qed.

End Sticky.

Section ProviderAnswers.

Variable ParseFloat : string -> option float64.
Variable foldName : string -> string.
Variable UnmarshalErrorText : string -> Body -> string.
Variable http_Get : string -> GetResult.

Lemma decodeContext_entry c sv :
  Json.decodeContext foldName (contextEntry c) zeroContext sv = (c, sv).
Proof. destruct c. reflexivity. Qed.

Lemma decodeItems_entries context sv :
  Json.decodeItems (Json.decodeContext foldName) zeroContext
    (map contextEntry context) [] sv = (context, sv).
Proof.
  induction context as [|c context IH]; [reflexivity|].
  cbn [map Json.decodeItems tl]. now rewrite decodeContext_entry, IH.
Qed.

Lemma decodeFeature_candidate c lon lat sv :
  ParseFloat (candLon c) = Some lon -> ParseFloat (candLat c) = Some lat ->
  Json.decodeFeature ParseFloat foldName (candidateJSON c) zeroFeature sv
  = (mkFeature "Feature" (candPlace c) [lon; lat] (candContext c), sv).
Proof.
  intros Hlon Hlat.
  unfold candidateJSON, providerFeature, Json.decodeFeature, Json.decodeStruct.
  cbn [Json.decodeMembers].
  change (Json.lookupField foldName ["type"; "place_name"; "center"; "context"] "type")
    with (Some 0).
  change (Json.lookupField foldName ["type"; "place_name"; "center"; "context"] "place_name")
    with (Some 1).
  change (Json.lookupField foldName ["type"; "place_name"; "center"; "context"] "center")
    with (Some 2).
  change (Json.lookupField foldName ["type"; "place_name"; "center"; "context"] "context")
    with (Some 3).
  cbv beta iota.
  unfold Json.intoField.
  cbn [Json.decodeString Json.decodeSlice Json.decodeItems Json.decodeFloat64 tl
       Feature_Type Feature_PlaceName Center Feature_Context zeroFeature].
  rewrite Hlon, Hlat, decodeItems_entries. reflexivity.
Qed.

Lemma decodeItems_candidates candidates sv :
  Forall (parses ParseFloat) candidates ->
  exists features,
    Json.decodeItems (Json.decodeFeature ParseFloat foldName) zeroFeature
      (map candidateJSON candidates) [] sv = (features, sv).
Proof.
  induction 1 as [|c cs [Hlon Hlat] _ [features IH]]; [eexists; reflexivity|].
  destruct (ParseFloat (candLon c)) as [lon|] eqn:E1; [|congruence].
  destruct (ParseFloat (candLat c)) as [lat|] eqn:E2; [|congruence].
  cbn [map Json.decodeItems tl].
  rewrite (decodeFeature_candidate c lon lat sv E1 E2), IH.
  eexists; reflexivity.
Qed.

(** X8: for a provider answer of the documented shape (a feature collection
    whose candidates carry [place_name], [center = [lon, lat]] and a context
    list), [geocodeAddress] returns the first candidate: its parsed
    longitude and latitude, its place name, and for country, region and city
    the text of its last context entry of that kind, or the sentinel. *)
Theorem geocodeAddress_of_provider_answer
    address accessToken first others lon lat :
  http_Get (geocodeURL address accessToken)
    = GetOk (ReadOk (featuresBody (first :: others))) ->
  ParseFloat (candLon first) = Some lon ->
  ParseFloat (candLat first) = Some lat ->
  Forall (parses ParseFloat) others ->
  geocodeAddress ParseFloat foldName UnmarshalErrorText http_Get address accessToken
  = Success
      (mkLocationInfo lat lon
         (textOr sentinel (lastMatch "country" (candContext first)))
         (textOr sentinel (lastMatch "region" (candContext first)))
         (textOr sentinel (lastMatch "place" (candContext first)))
         (candPlace first)).
Proof.
  intros Hget Hlon Hlat Hothers.
  destruct (decodeItems_candidates others None Hothers) as [features Hrest].
  assert (Hdec :
    Json.Unmarshal (Json.decodeGeocodeResponse ParseFloat foldName)
      (featuresBody (first :: others)) zeroGeocodeResponse
    = (mkGeocodeResponse "FeatureCollection"
         (mkFeature "Feature" (candPlace first) [lon; lat] (candContext first)
          :: features), None)).
  { unfold featuresBody, Json.Unmarshal, Json.decodeGeocodeResponse, Json.decodeStruct.
    cbn [Json.decodeMembers].
    change (Json.lookupField foldName ["type"; "features"] "type") with (Some 0).
    change (Json.lookupField foldName ["type"; "features"] "features") with (Some 1).
    cbv beta iota. unfold Json.intoField.
    cbn [Json.decodeString Json.decodeSlice map Json.decodeItems tl
         GeocodeResponse_Type Features zeroGeocodeResponse].
    rewrite (decodeFeature_candidate first lon lat None Hlon Hlat), Hrest.
    reflexivity. }
  erewrite geocodeAddress_decoded by eassumption.
  cbn [Features]. erewrite locationOf_pair by reflexivity.
  cbn [Feature_Context Feature_PlaceName].
  set (start := mkLocationInfo lat lon sentinel sentinel sentinel (candPlace first)).
  destruct (scan_keeps (candContext first) start) as (H1 & H2 & H3).
  destruct (scan_lastMatch (candContext first) start) as (H4 & H5 & H6).
  destruct (fold_left scanContext (candContext first) start) as [la lo co re ci pl].
  cbn in *. subst. reflexivity.
Qed.

Lemma decodeRoute_provider distanceLit durationLit distance duration sv :
  ParseFloat distanceLit = Some distance -> ParseFloat durationLit = Some duration ->
  Json.decodeRoute ParseFloat foldName (providerRoute distanceLit durationLit)
    zeroRoute sv
  = (mkRoute distance duration zeroGeometry, sv).
Proof.
  intros Hd Ht. unfold providerRoute, Json.decodeRoute, Json.decodeStruct.
  cbn [Json.decodeMembers].
  change (Json.lookupField foldName ["distance"; "duration"; "geometry"] "distance")
    with (Some 0).
  change (Json.lookupField foldName ["distance"; "duration"; "geometry"] "duration")
    with (Some 1).
  cbv beta iota. unfold Json.intoField.
  cbn [Json.decodeFloat64 Distance Duration Route_Geometry zeroRoute].
  rewrite Hd, Ht. reflexivity.
Qed.

Lemma decodeItems_routes routes sv :
  Forall (fun r => ParseFloat (fst r) <> None /\ ParseFloat (snd r) <> None) routes ->
  exists decoded,
    Json.decodeItems (Json.decodeRoute ParseFloat foldName) zeroRoute
      (map (fun r => providerRoute (fst r) (snd r)) routes) [] sv = (decoded, sv).
Proof.
  induction 1 as [|[a b] rs [Ha Hb] _ [decoded IH]]; [eexists; reflexivity|].
  cbn [fst snd] in Ha, Hb.
  destruct (ParseFloat a) as [x|] eqn:E1; [|congruence].
  destruct (ParseFloat b) as [y|] eqn:E2; [|congruence].
  cbn [map Json.decodeItems tl fst snd].
  rewrite (decodeRoute_provider a b x y sv E1 E2), IH.
  eexists; reflexivity.
Qed.

(** X9: for a directions answer that lists routes with [distance] and
    [duration], [getDistance] returns the first route's two numbers as
    parsed, unchanged; the routes after it play no part. *)
Theorem getDistance_of_provider_answer
    start end_ accessToken distanceLit durationLit others distance duration :
  http_Get (directionsURL start end_ accessToken)
    = GetOk (ReadOk (routesBody ((distanceLit, durationLit) :: others))) ->
  ParseFloat distanceLit = Some distance ->
  ParseFloat durationLit = Some duration ->
  Forall (fun r => ParseFloat (fst r) <> None /\ ParseFloat (snd r) <> None) others ->
  getDistance ParseFloat foldName UnmarshalErrorText http_Get start end_ accessToken
  = Success (distance, duration).
Proof.
  intros Hget Hd Ht Hothers.
  destruct (decodeItems_routes others None Hothers) as [decoded Hrest].
  assert (Hdec :
    Json.Unmarshal (Json.decodeDirectionsResponse ParseFloat foldName)
      (routesBody ((distanceLit, durationLit) :: others)) zeroDirectionsResponse
    = (mkDirectionsResponse (mkRoute distance duration zeroGeometry :: decoded), None)).
  { unfold routesBody, Json.Unmarshal, Json.decodeDirectionsResponse, Json.decodeStruct.
    cbn [Json.decodeMembers].
    change (Json.lookupField foldName ["routes"] "routes") with (Some 0).
    cbv beta iota. unfold Json.intoField.
    cbn [Json.decodeSlice map Json.decodeItems tl Routes zeroDirectionsResponse fst snd].
    rewrite (decodeRoute_provider _ _ _ _ None Hd Ht), Hrest. reflexivity. }
  erewrite getDistance_decoded by eassumption. reflexivity.
Qed.

End ProviderAnswers.

(** ** The console loop *)

Lemma hoare_bind {A B} I E (p : Proc A) (k : A -> Proc B) Q R :
  hoare I E p Q -> (forall a, Q a -> hoare I E (k a) R) ->
  hoare I E (andThen p k) R.
Proof.
  intros Hp Hk w Hw. unfold andThen. specialize (Hp w Hw).
  destruct (p w) as [[e|a] w1]; [exact Hp|].
  destruct Hp as [Hw1 Ha]. exact (Hk a Ha w1 Hw1).
Qed.

Lemma hoare_weaken {A} I E (p : Proc A) (Q R : A -> Prop) :
  hoare I E p Q -> (forall a, Q a -> R a) -> hoare I E p R.
Proof.
  intros Hp HQR w Hw. specialize (Hp w Hw).
  destruct (p w) as [[e|a] w1]; [exact Hp|]. destruct Hp; auto.
Qed.

Lemma hoare_ret {A} I E (a : A) (Q : A -> Prop) : Q a -> hoare I E (ret a) Q.
Proof. intros Ha w Hw. cbn. auto. Qed.

Section MainLoop.

Variable ParseFloat : string -> option float64.
Variable foldName : string -> string.
Variable UnmarshalErrorText : string -> Body -> string.
Variable stdin : nat -> string.
Variable net : nat -> string -> GetResult.
Variable token : string.

Local Notation isGeocoded := (geocoded ParseFloat foldName UnmarshalErrorText net token).
Local Notation expected :=
  (expectedRequest ParseFloat foldName UnmarshalErrorText stdin net token).
Local Notation stops := (stopsByPanic ParseFloat foldName UnmarshalErrorText net token).
Local Notation loop := (main ParseFloat foldName UnmarshalErrorText stdin net token).
Local Notation lookup :=
  (callGeocode ParseFloat foldName UnmarshalErrorText net token).
Local Notation estimate :=
  (callDistance ParseFloat foldName UnmarshalErrorText net token).

Lemma getDistance_no_panic http_Get start end_ accessToken msg :
  getDistance ParseFloat foldName UnmarshalErrorText http_Get start end_ accessToken
    <> Panic msg.
Proof.
  unfold getDistance.
  destruct (http_Get (directionsURL start end_ accessToken)) as [cause|[cause|body]];
    try discriminate.
  destruct (Json.Unmarshal _ body zeroDirectionsResponse) as [resp [e|]];
    try discriminate.
  destruct (Routes resp); discriminate.
Qed.

(** The step [callGeocode] returns what [geocodeAddress] returns for the
    network's answer to this call, and records the URL it asked for. *)
Lemma callGeocode_run address w :
  lookup address w =
  (match geocodeAddress ParseFloat foldName UnmarshalErrorText
           (net (List.length (requests w))) address token with
   | Success location => inr (Some location, None)
   | Failure _ err => inr (None, Some err)
   | Panic msg => inl (Panicked msg)
   end,
   mkWorld (stdout w) (reads w) (requests w ++ [geocodeURL address token])).
Proof.
  unfold callGeocode, geocodeAddress, andThen, httpGet.
  destruct (net (List.length (requests w)) (geocodeURL address token))
    as [cause|[cause|body]]; try reflexivity.
  destruct (Json.Unmarshal _ body zeroGeocodeResponse) as [resp [e|]];
    try reflexivity.
  destruct (Features resp) as [|feature rest]; [reflexivity|].
  cbn [List.length Nat.eqb]. unfold elementAt, locationOf, index.
  cbn [nth_error]. unfold ret at 1. cbv beta iota.
  destruct (Center feature) as [|lon [|lat more]]; reflexivity.
Qed.

Lemma callDistance_run start end_ w :
  estimate (Some start) (Some end_) w =
  (match getDistance ParseFloat foldName UnmarshalErrorText
           (net (List.length (requests w))) start end_ token with
   | Success (distance, duration) => inr (distance, duration, None)
   | Failure _ err => inr (0%float, 0%float, Some err)
   | Panic msg => inl (Panicked msg)
   end,
   mkWorld (stdout w) (reads w) (requests w ++ [directionsURL start end_ token])).
Proof.
  unfold callDistance, getDistance, andThen, httpGet, deref, ret.
  destruct (net (List.length (requests w)) (directionsURL start end_ token))
    as [cause|[cause|body]]; try reflexivity.
  destruct (Json.Unmarshal _ body zeroDirectionsResponse) as [resp [e|]];
    try reflexivity.
  destruct (Routes resp) as [|r rest]; reflexivity.
Qed.

(** A property of the list of requests that adding an expected request
    keeps. *)
Variable P : list string -> Prop.
Hypothesis P_request : forall l url, P l -> expected url -> P (l ++ [url]).

Local Notation inv := (fun w : World => P (requests w)).

Lemma hoare_print E s : hoare inv E (print s) (fun _ => True).
Proof. intros w Hw. cbn. auto. Qed.

Lemma hoare_readLine E :
  hoare inv E (readLine stdin) (fun line => exists j, line = stdin j).
Proof. intros w Hw. cbn. eauto. Qed.

Lemma hoare_callGeocode address :
  (exists j, address = stdin j) ->
  hoare inv stops (lookup address)
    (fun r => (exists location, r = (Some location, None) /\ isGeocoded location)
              \/ (exists err, r = (None, Some err))).
Proof.
  intros [j ->] w Hw. rewrite callGeocode_run.
  assert (Hreq : P (requests w ++ [geocodeURL (stdin j) token])).
  { apply P_request; [exact Hw|]. left. eexists; reflexivity. }
  destruct (geocodeAddress ParseFloat foldName UnmarshalErrorText
              (net (List.length (requests w))) (stdin j) token)
    as [location|site err|msg] eqn:Hrun; cbn [requests].
  - split; [exact Hreq|]. left. exists location. split; [reflexivity|].
    exists (List.length (requests w)), (stdin j). exact Hrun.
  - split; [exact Hreq|]. right. eexists; reflexivity.
  - split; [exact Hreq|]. right. exists msg, (List.length (requests w)), (stdin j). auto.
Qed.

Lemma hoare_callDistance start end_ :
  isGeocoded start -> isGeocoded end_ ->
  hoare inv stops (estimate (Some start) (Some end_)) (fun _ => True).
Proof.
  intros Hs He w Hw. rewrite callDistance_run.
  assert (Hreq : P (requests w ++ [directionsURL start end_ token])).
  { apply P_request; [exact Hw|]. right. exists start, end_. auto. }
  destruct (getDistance ParseFloat foldName UnmarshalErrorText
              (net (List.length (requests w))) start end_ token)
    as [[distance duration]|site err|msg] eqn:Hrun; cbn [requests].
  - split; [exact Hreq|exact I].
  - split; [exact Hreq|exact I].
  - now apply getDistance_no_panic in Hrun.
Qed.

Lemma hoare_printLocation E name location :
  hoare inv E (printLocation name (Some location)) (fun _ => True).
Proof. intros w Hw. cbn. auto. Qed.

Lemma hoare_printDistance E distance duration :
  hoare inv E (printDistance distance duration) (fun _ => True).
Proof. intros w Hw. cbn. auto. Qed.

(** A call [main()] that never returns leaves nothing to run after it. *)
Lemma hoare_calling callee (Q : unit -> Prop) :
  (forall w, inv w -> inv (snd (callee w)) /\ stops (fst (callee w))) ->
  hoare inv stops (calling callee) Q.
Proof.
  intros Hc w Hw. unfold calling. specialize (Hc w Hw).
  destruct (callee w) as [e w1]. cbn [fst snd] in Hc. destruct Hc as [Hw1 He].
  destruct e.
  - destruct He as [He|(msg & k & a & He & _)]; discriminate He.
  - auto.
  - auto.
Qed.

Lemma hoare_restart callee (Q : unit -> Prop) s :
  (forall w, inv w -> inv (snd (callee w)) /\ stops (fst (callee w))) ->
  hoare inv stops (print s ;;; calling callee) Q.
Proof.
  intro Hc. eapply hoare_bind; [apply hoare_print|].
  intros _ _. now apply hoare_calling.
Qed.

Lemma hoare_round callee :
  (forall w, inv w -> inv (snd (callee w)) /\ stops (fst (callee w))) ->
  hoare inv stops
    (round ParseFloat foldName UnmarshalErrorText stdin net token (calling callee))
    (fun _ => False).
Proof.
  intro Hc. unfold round.
  eapply hoare_bind; [apply hoare_print|]. intros _ _.
  eapply hoare_bind; [apply hoare_readLine|]. intros address1 Hline1.
  eapply hoare_bind; [apply hoare_print|]. intros _ _.
  eapply hoare_bind; [apply hoare_readLine|]. intros address2 Hline2.
  eapply hoare_bind; [apply hoare_print|]. intros _ _.
  eapply hoare_bind; [now apply hoare_callGeocode|].
  intros r1 [(location1 & -> & Hg1)|(err1 & ->)]; cbn [fst snd].
  2:{ eapply hoare_bind; [now apply (hoare_restart callee (fun _ => False))|].
      intros _ []. }
  eapply hoare_bind; [apply (hoare_ret _ _ tt (fun _ => True) I)|]. intros _ _.
  eapply hoare_bind; [apply hoare_printLocation|]. intros _ _.
  eapply hoare_bind; [apply hoare_print|]. intros _ _.
  eapply hoare_bind; [now apply hoare_callGeocode|].
  intros r2 [(location2 & -> & Hg2)|(err2 & ->)]; cbn [fst snd].
  2:{ eapply hoare_bind; [now apply (hoare_restart callee (fun _ => False))|].
      intros _ []. }
  eapply hoare_bind; [apply (hoare_ret _ _ tt (fun _ => True) I)|]. intros _ _.
  eapply hoare_bind; [apply hoare_printLocation|]. intros _ _.
  eapply hoare_bind; [apply hoare_print|]. intros _ _.
  eapply hoare_bind; [now apply hoare_callDistance|].
  intros [[distance duration] [err3|]] _; cbn [fst snd].
  { eapply hoare_bind; [now apply (hoare_restart callee (fun _ => False))|].
    intros _ []. }
  eapply hoare_bind; [apply (hoare_ret _ _ tt (fun _ => True) I)|]. intros _ _.
  eapply hoare_bind; [apply hoare_printDistance|]. intros _ _.
  now apply hoare_restart.
Qed.

Lemma main_invariant fuel :
  forall w, inv w -> inv (snd (loop fuel w)) /\ stops (fst (loop fuel w)).
Proof.
  induction fuel as [|fuel IH]; intros w Hw.
  - cbn. split; [exact Hw|]. now left.
  - cbn [main].
    pose proof (hoare_round (loop fuel) IH w Hw) as H.
    destruct (round _ _ _ _ _ _ _ w) as [[e|[]] w1]; [exact H|].
    destruct H as [_ []].
Qed.

End MainLoop.

Lemma string_app_assoc (a b c : string) :
  ((a ++ b) ++ c = a ++ b ++ c)%string.
Proof.
  induction a as [|x a IH]; cbn; [reflexivity|]. now rewrite IH.
Qed.

Section MainProperties.

Variable ParseFloat : string -> option float64.
Variable foldName : string -> string.
Variable UnmarshalErrorText : string -> Body -> string.
Variable stdin : nat -> string.
Variable net : nat -> string -> GetResult.
Variable token : string.

Local Notation loop := (main ParseFloat foldName UnmarshalErrorText stdin net token).


(** X10: no call of [main] returns, and [main] does not panic except by a
    panic raised in [geocodeAddress]: the uses of a [nil] location after a
    failed lookup are never reached. *)
Theorem main_never_returns fuel w :
  fst (loop fuel w) <> Returned /\
  forall msg,
    fst (loop fuel w) = Panicked msg ->
    exists k address,
      geocodeAddress ParseFloat foldName UnmarshalErrorText (net k) address token
        = Panic msg.
Proof.
  destruct (main_invariant ParseFloat foldName UnmarshalErrorText stdin net token
              (fun _ => True) (fun _ _ _ _ => I) fuel w I)
    as [_ [Hrun|(msg0 & k & address & Hp & Hg)]].
  - rewrite Hrun. split; [discriminate|]. discriminate.
  - rewrite Hp. split; [discriminate|].
    intros msg [= <-]. eauto.
Qed.

(** X11: every request [main] makes is a geocoding request for a line it
    read, or a directions request between two locations that calls of
    [geocodeAddress] returned; with [strconv.ParseFloat] returning finite
    values only, the four coordinates of such a directions request are
    printed with exactly six decimals. *)
Theorem main_requests fuel out n :
  (forall lit x, ParseFloat lit = Some x -> finite x = true) ->
  Forall
    (fun url =>
       (exists j, url = geocodeURL (stdin j) token) \/
       (exists start end_,
          geocoded ParseFloat foldName UnmarshalErrorText net token start /\
          geocoded ParseFloat foldName UnmarshalErrorText net token end_ /\
          url = directionsURL start end_ token /\
          SixDecimals (Fmt.f6 (Longitude start)) /\
          SixDecimals (Fmt.f6 (Latitude start)) /\
          SixDecimals (Fmt.f6 (Longitude end_)) /\
          SixDecimals (Fmt.f6 (Latitude end_))))
    (requests (snd (loop fuel (mkWorld out n [])))).
Proof.
  intro Hfinite.
  pose proof (main_invariant ParseFloat foldName UnmarshalErrorText stdin net token
                (Forall (expectedRequest ParseFloat foldName UnmarshalErrorText
                           stdin net token))
                (fun l url Hl Hu => proj2 (Forall_app _ l [url])
                                      (conj Hl (Forall_cons url Hu (Forall_nil _))))
                fuel (mkWorld out n []) (Forall_nil _)) as [H _].
  revert H. apply Forall_impl.
  intros url [Hg|(start & end_ & Hs & He & ->)]; [now left|].
  right. exists start, end_. split; [exact Hs|]. split; [exact He|].
  split; [reflexivity|].
  destruct Hs as (k1 & a1 & H1). destruct He as (k2 & a2 & H2).
  destruct (geocodeAddress_finite ParseFloat foldName Hfinite UnmarshalErrorText
              (net k1) a1 token start H1) as [Ha Hb].
  destruct (geocodeAddress_finite ParseFloat foldName Hfinite UnmarshalErrorText
              (net k2) a2 token end_ H2) as [Hc Hd].
  repeat split; now apply f6_finite.
Qed.

(** X12: when the lookup of the first address fails, [main] starts over:
    both lines have been read, the error is printed, and the second address
    is never looked up. *)
Theorem main_restarts_after_first_failure fuel w site err :
  geocodeAddress ParseFloat foldName UnmarshalErrorText
    (net (List.length (requests w))) (stdin (reads w)) token = Failure site err ->
  loop (S fuel) w =
  loop fuel
    (mkWorld
       (stdout w
        ++ (nl ++ "Введіть першу адресу або місце (наприклад, 'м. Київ, вул. Хрещатик'):" ++ nl)
        ++ ("Введіть другу адресу або місце:" ++ nl)
        ++ (nl ++ "Обробка першої адреси..." ++ nl)
        ++ ("Помилка геокодування першої адреси: " ++ Error err ++ nl ++ nl ++ nl))%string
       (S (S (reads w)))
       (requests w ++ [geocodeURL (stdin (reads w)) token])).
Proof.
  intro Hrun.
  cbn [main]. unfold round at 1.
  unfold andThen at 1. cbn [print].
  unfold andThen at 1. cbn [readLine stdout reads requests].
  unfold andThen at 1. cbn [print stdout reads requests].
  unfold andThen at 1. cbn [readLine stdout reads requests].
  unfold andThen at 1. cbn [print stdout reads requests].
  unfold andThen at 1. rewrite callGeocode_run. cbn [stdout reads requests].
  rewrite Hrun. cbn [fst snd].
  unfold andThen at 1. unfold andThen at 1. cbn [print stdout reads requests].
  unfold calling.
  rewrite !string_app_assoc.
  match goal with
  | |- context [main _ _ _ _ _ _ fuel ?w1] =>
      pose proof (main_invariant ParseFloat foldName UnmarshalErrorText stdin net token
                    (fun _ => True) (fun _ _ _ _ => I) fuel w1 I) as [_ Hstop];
      destruct (main ParseFloat foldName UnmarshalErrorText stdin net token
                  fuel w1) as [e w2]
  end.
  destruct e; [|reflexivity|reflexivity].
  destruct Hstop as [He|(msg & k & a & He & _)]; discriminate He.
Qed.

End MainProperties.

(** ** The further properties on the examples *)

Lemma exampleParseFloat_finite lit x :
  Example.ParseFloat lit = Some x -> finite x = true.
Proof.
  unfold Example.ParseFloat, Example.numberTable. cbn [Example.lookupNumber].
  repeat match goal with
         | |- context [if ?b then _ else _] => destruct b
         end;
    intros [= <-]; reflexivity.
Qed.

Lemma geocodeAddress_panics_iff_example :
  exists msg,
    Example.geocode (Example.answering Example.bodyNoCenter) "Some City" "token"
      = Panic msg.
Proof.
  apply (proj2 (geocodeAddress_panics_iff Example.ParseFloat Example.foldName
                  Example.UnmarshalErrorText
                  (Example.answering Example.bodyNoCenter) "Some City" "token")).
  exists Example.bodyNoCenter,
         (mkGeocodeResponse "FeatureCollection"
            [mkFeature "Feature" "Somewhere 1, Some City" [] []]),
         (mkFeature "Feature" "Somewhere 1, Some City" [] []), [].
  repeat split; cbn; lia.
Defined.

Lemma geocodeURL_injective_example :
  geocodeURL "a b" "token" <> geocodeURL "a+b" "token".
Proof.
  apply geocodeURL_injective. discriminate.
Defined.

Lemma malformed_candidate_fails_decoding_example :
  exists err,
    Example.geocode (Example.answering Scenario.bodyMalformed) "Some City" "token"
      = Failure DecodeError err.
Proof.
  apply (malformed_candidate_fails_decoding Example.ParseFloat Example.foldName
           Example.UnmarshalErrorText (Example.answering Scenario.bodyMalformed)
           "Some City" "token"
           [("type", JString "FeatureCollection");
            ("features", JArray [candidateJSON Scenario.first; JString "oops"])]
           [candidateJSON Scenario.first; JString "oops"] (JString "oops")).
  - reflexivity.
  - right. left. reflexivity.
  - right. left. reflexivity.
  - reflexivity.
Defined.

Lemma geocodeAddress_of_provider_answer_example :
  Example.geocode (Scenario.net 0) "Some City" "token"
  = Success (mkLocationInfo 50.2%float 10.5%float "Some Country" "B" "Some City"
               "Somewhere 1, Some City").
Proof.
  apply (geocodeAddress_of_provider_answer Example.ParseFloat Example.foldName
           Example.UnmarshalErrorText (Scenario.net 0) "Some City" "token"
           Scenario.first [Scenario.second] 10.5%float 50.2%float).
  - reflexivity.
  - reflexivity.
  - reflexivity.
  - repeat constructor; discriminate.
Defined.

Lemma getDistance_of_provider_answer_example :
  Example.distance (Scenario.net 2) Example.empireState Example.brooklynBridge "token"
  = Success (1250.5%float, 95.25%float).
Proof.
  apply (getDistance_of_provider_answer Example.ParseFloat Example.foldName
           Example.UnmarshalErrorText (Scenario.net 2)
           Example.empireState Example.brooklynBridge "token"
           "1250.5" "95.25" [("200", "100")]).
  - reflexivity.
  - reflexivity.
  - reflexivity.
  - repeat constructor; discriminate.
Defined.


Lemma main_never_returns_example :
  exists k address,
    geocodeAddress Example.ParseFloat Example.foldName Example.UnmarshalErrorText
      (Scenario.broken k) address "token"
    = Panic "runtime error: index out of range [0] with length 0".
Proof.
  apply (proj2 (main_never_returns Example.ParseFloat Example.foldName
                  Example.UnmarshalErrorText Scenario.stdin Scenario.broken "token"
                  1 Scenario.start)).
  reflexivity.
Defined.

Lemma main_requests_example :
  Forall
    (fun url =>
       (exists j, url = geocodeURL (Scenario.stdin j) "token") \/
       (exists start end_,
          geocoded Example.ParseFloat Example.foldName Example.UnmarshalErrorText
            Scenario.net "token" start /\
          geocoded Example.ParseFloat Example.foldName Example.UnmarshalErrorText
            Scenario.net "token" end_ /\
          url = directionsURL start end_ "token" /\
          SixDecimals (Fmt.f6 (Longitude start)) /\
          SixDecimals (Fmt.f6 (Latitude start)) /\
          SixDecimals (Fmt.f6 (Longitude end_)) /\
          SixDecimals (Fmt.f6 (Latitude end_))))
    (requests (snd (Scenario.run Scenario.net 2))).
Proof.
  apply (main_requests Example.ParseFloat Example.foldName Example.UnmarshalErrorText
           Scenario.stdin Scenario.net "token" 2 "" 0 exampleParseFloat_finite).
Defined.

Lemma main_restarts_after_first_failure_example :
  Scenario.run Scenario.offline 1 =
  (Running,
   mkWorld
     (nl ++ "Введіть першу адресу або місце (наприклад, 'м. Київ, вул. Хрещатик'):" ++ nl
      ++ "Введіть другу адресу або місце:" ++ nl
      ++ nl ++ "Обробка першої адреси..." ++ nl
      ++ "Помилка геокодування першої адреси: помилка HTTP запиту: dial tcp: connection refused"
      ++ nl ++ nl ++ nl)
     2
     ["https://api.mapbox.com/geocoding/v5/mapbox.places/Some+City.json?access_token=token"]).
Proof.
  unfold Scenario.run.
  rewrite (main_restarts_after_first_failure Example.ParseFloat Example.foldName
             Example.UnmarshalErrorText Scenario.stdin Scenario.offline "token"
             0 Scenario.start NetworkError
             (errorString "помилка HTTP запиту: dial tcp: connection refused")
             eq_refl).
  reflexivity.
Defined.
